(** * Attendance verification and recording engine

    A shallow embedding of the attendance controllers of the HR platform
    (manual entry and exit, QR scan, facial recognition, presence reports)
    and the properties of its specification, checked against the code.

    JavaScript numbers are IEEE 754 binary64 values: they are modelled by
    Rocq's primitive floats, so every arithmetic step below rounds as the
    program does.  Instants ([Date], Firestore [Timestamp]) are integer
    milliseconds since the epoch.  Firestore is an explicit store that is
    passed through every handler. *)

From Stdlib Require Import ZArith QArith List String Ascii Bool Lia.
From Stdlib Require Import Floats Uint63 DecimalString Sorted.
Import ListNotations.

Set Warnings "-inexact-float".
Local Open Scope string_scope.
Local Open Scope Z_scope.

(* ================================================================== *)
(** ** JavaScript numbers *)

Module JsNumber.

(** The Number that holds an integer below 2^63: exact below 2^53,
    rounded to nearest even above, as a subtraction of two [Date]s
    (each below 8.64e15 in magnitude) is. *)
Definition float_of_Z (z : Z) : float :=
  match z with
  | Z0 => 0%float
  | Zpos _ => PrimFloat.of_uint63 (Uint63.of_Z z)
  | Zneg p => (- PrimFloat.of_uint63 (Uint63.of_Z (Zpos p)))%float
  end.

(** [Math.pow(x, 2)]. *)
Definition pow2 (x : float) : float := (x * x)%float.

(** [a >= b] and [a > b] on Numbers: false as soon as one side is NaN. *)
Definition geb (a b : float) : bool := (b <=? a)%float.
Definition gtb (a b : float) : bool := (b <? a)%float.

Definition digits (n : Z) : string :=
  NilZero.string_of_uint (N.to_uint (Z.to_N n)).

(** The integer [n] for which [n / 10 - |x|] is closest to zero, the
    larger one on a tie (step 10.a of [Number.prototype.toFixed]), for
    a finite [x] of mantissa [m] and exponent [e]: |x| = m * 2^e. *)
Definition tenths (m : positive) (e : Z) : Z :=
  match e with
  | Zneg p => (2 * 10 * Zpos m + 2 ^ Zpos p) / 2 ^ (Zpos p + 1)
  | _ => 10 * Zpos m * 2 ^ e
  end.

(** The Number value for a positive integer [n]: the binary64 value
    nearest to it, the one of even mantissa on a tie. *)
Definition nearest (n : Z) : Z :=
  let shift := Z.log2 n - 52 in
  if shift <=? 0 then n
  else
    let q := n / 2 ^ shift in
    let r := n mod 2 ^ shift in
    let half := 2 ^ (shift - 1) in
    let q' := if (half <? r) || ((r =? half) && Z.odd q) then q + 1 else q in
    q' * 2 ^ shift.

(** The integer with the fewest significant digits whose Number value is
    [x], the closest to [x] when there are several, the one whose last
    significant digit is even on a tie ([Number::toString], step 5).
    The multiples of [unit] next to [x] are tried, then those of a
    tenth of it; seventeen digits always tell a Number. *)
Fixpoint shortest (fuel : nat) (x : Z) (unit : Z) : Z :=
  let lo := x / unit * unit in
  let hi := lo + unit in
  let loOk := nearest lo =? x in
  let hiOk := nearest hi =? x in
  match fuel with
  | O => x
  | S fuel' =>
      if loOk && hiOk then
        if x - lo <? hi - x then lo
        else if hi - x <? x - lo then hi
        else if Z.even (lo / unit) then lo else hi
      else if loOk then lo
      else if hiOk then hi
      else shortest fuel' x (unit / 10)
  end.

Fixpoint stripZeros (s : string) : string :=
  match s with
  | EmptyString => EmptyString
  | String c rest =>
      match stripZeros rest with
      | EmptyString => if (c =? "0")%char then EmptyString else String c EmptyString
      | rest' => String c rest'
      end
  end.

(** [Number::toString] of an integer Number [x >= 10^21]: its shortest
    digits in exponent notation, as in [1e+21] and [1.5e+22]. *)
Definition exponential (x : Z) : string :=
  let n := Z.of_nat (String.length (digits x)) in
  let s := digits (shortest 17 x (10 ^ (n - 1))) in
  let e := Z.of_nat (String.length s) - 1 in
  match stripZeros s with
  | String d EmptyString => (String d EmptyString ++ "e+" ++ digits e)%string
  | String d rest => (String d ("." ++ rest) ++ "e+" ++ digits e)%string
  | EmptyString => "0"
  end.

(** [x.toFixed(1)]: one decimal when |x| < 10^21, the digits of
    [String(x)] from there on. *)
Definition toFixed1 (x : float) : string :=
  match Prim2SF x with
  | S754_nan => "NaN"
  | S754_infinity s => if s then "-Infinity" else "Infinity"
  | S754_zero _ => "0.0"
  | S754_finite s m e =>
      if 10 ^ 21 <=? Zpos m * 2 ^ e
      then ((if s then "-" else "") ++ exponential (Zpos m * 2 ^ e))%string
      else
        let n := tenths m e in
        ((if s then "-" else "") ++ digits (n / 10) ++ "." ++ digits (n mod 10))%string
  end.

(** The value of a finite Number, as a rational; 0 for the others. *)
Definition exact (x : float) : Q :=
  match Prim2SF x with
  | S754_finite s m e =>
      ((if s then -1 else 1) * inject_Z (Zpos m) * Qpower 2 e)%Q
  | _ => 0%Q
  end.

End JsNumber.

(* ================================================================== *)
(** ** JavaScript dates

    A [Date] is its time value, in milliseconds.  The local-time
    accessors the controllers use ([getHours], [setHours], [setDate],
    [setMonth]) are given for a server whose zone is a fixed offset
    [tz] (milliseconds east of UTC). *)

Module JsDate.

Definition msPerDay : Z := 24 * 60 * 60 * 1000.
Definition msPerHour : Z := 60 * 60 * 1000.

(** Days since the epoch of a proleptic Gregorian date. *)
Definition days_from_civil (y m d : Z) : Z :=
  let y' := if m <=? 2 then y - 1 else y in
  let era := y' / 400 in
  let yoe := y' - era * 400 in
  let mp := if 2 <? m then m - 3 else m + 9 in
  let doy := (153 * mp + 2) / 5 + d - 1 in
  let doe := yoe * 365 + yoe / 4 - yoe / 100 + doy in
  era * 146097 + doe - 719468.

(** Year, month (1..12) and day of month of a day number. *)
Definition civil_from_days (z : Z) : Z * Z * Z :=
  let z' := z + 719468 in
  let era := z' / 146097 in
  let doe := z' - era * 146097 in
  let yoe := (doe - doe / 1460 + doe / 36524 - doe / 146096) / 365 in
  let doy := doe - (365 * yoe + yoe / 4 - yoe / 100) in
  let mp := (5 * doy + 2) / 153 in
  let d := doy - (153 * mp + 2) / 5 + 1 in
  let m := if mp <? 10 then mp + 3 else mp - 9 in
  ((if m <=? 2 then yoe + era * 400 + 1 else yoe + era * 400), m, d).

Section LocalTime.
Variable tz : Z.

Definition localDay (t : Z) : Z := (t + tz) / msPerDay.
Definition msOfDay (t : Z) : Z := (t + tz) mod msPerDay.

(** [d.getHours()] *)
Definition getHours (t : Z) : Z := msOfDay t / msPerHour.

(** [d.setHours(0, 0, 0, 0)] *)
Definition startOfDay (t : Z) : Z := t - msOfDay t.

(** [d.setHours(23, 59, 59, 999)] *)
Definition endOfDay (t : Z) : Z := startOfDay t + msPerDay - 1.

(** [d.setDate(d.getDate() + n)] *)
Definition addDays (n t : Z) : Z := t + n * msPerDay.

(** [d.setDate(1)] *)
Definition setDate1 (t : Z) : Z :=
  let '(y, m, _) := civil_from_days (localDay t) in
  t + (days_from_civil y m 1 - localDay t) * msPerDay.

(** [d.setMonth(d.getMonth() + 1)]: the same day of the month and
    time of day one month later, a day past the month's end running
    over into the month after. *)
Definition addMonth (t : Z) : Z :=
  let '(y, m, d) := civil_from_days (localDay t) in
  let first := if m =? 12 then days_from_civil (y + 1) 1 1
               else days_from_civil y (m + 1) 1 in
  t + (first + (d - 1) - localDay t) * msPerDay.
End LocalTime.

Definition pad (width : nat) (s : string) : string :=
  (String.concat "" (repeat "0" (width - String.length s)%nat) ++ s)%string.

(** [d.toISOString().split('T')[0]]: the UTC calendar date. *)
Definition isoDate (t : Z) : string :=
  let '(y, m, d) := civil_from_days (t / msPerDay) in
  let year :=
    if (0 <=? y) && (y <=? 9999) then pad 4 (JsNumber.digits y)
    else ((if (y <? 0)%Z then "-" else "+") ++ pad 6 (JsNumber.digits (Z.abs y)))%string in
  (year ++ "-" ++ pad 2 (JsNumber.digits m) ++ "-" ++ pad 2 (JsNumber.digits d))%string.

End JsDate.

(* ================================================================== *)
(** ** Data model *)

Definition Instant := Z.

(** [location.coordinates]: [longitude, latitude]. *)
Definition Coordinates := (float * float)%type.

Inductive Method := manual | qr | facial.

(** A document of the [employees] collection (the fields the attendance
    controllers read). *)
Record Employee := {
  name : string;
  email : string;
  role : string;
  faceDescriptor : option (list float);
  hireDate : option Instant;
  emp_createdAt : option Instant
}.

(** A document of the [attendance] collection. *)
Record Attendance := {
  employeeId : string;
  entryTime : option Instant;
  exitTime : option Instant;
  location : Coordinates;
  exitLocation : option Coordinates;
  method : Method;
  createdAt : Instant;
  updatedAt : option Instant
}.

Definition DocId := nat.
Definition Doc := (DocId * Attendance)%type.

Record Db := {
  employees : list (string * Employee);
  attendance : list Doc
}.

(** [req.user], as the authentication middleware leaves it. *)
Record User := { user_id : string; user_role : string }.

(** A message handed to [sendEmailAndNotify]; [kind] is the [type] of its
    metadata. *)
Record Email := { recipient : string; subject : string; kind : option string }.

(** The process-wide settings: the allowed location and radius, read from
    the environment with the defaults below, and the server's zone. *)
Record Config := {
  allowedLng : float;
  allowedLat : float;
  allowedRadius : float;
  tzOffset : Z
}.

Definition defaultConfig : Config :=
  {| allowedLng := 8.8362755; allowedLat := 33.1245286;
     allowedRadius := 500; tzOffset := 0 |}.

(** What a request observes of the outside world: the clock, and whether
    Firestore can run a query.  [compositeQueryError] is the message of
    the error raised by a query that filters on [employeeId] and on a
    range of [entryTime] (it needs a composite index) when Firestore is
    given one to run; [simpleQueryError] the one raised by a query on
    [employeeId] alone.  [None]: the query runs.  Reads and writes of a
    single document always succeed. *)
Record Env := {
  now : Instant;
  compositeQueryError : option string;
  simpleQueryError : option string
}.

(** The object in a QR code, as [JSON.parse] returns it.
    [qr_employeeId] is [None] when the field is absent or not a string;
    a time is the number a subtraction reads in the field, [None] when
    that is NaN (the field is absent or does not convert to a number). *)
Record QrPayload := {
  qr_employeeId : option string;
  timestamp : option Instant;
  expiresAt : option Instant
}.

(** [qrData], by what [JSON.parse(qrData)] does with it: throws, returns
    [null], or returns a value whose fields can be read. *)
Inductive QrData :=
| BadJson
| JsonNull
| JsonObject (p : QrPayload).

(* ------------------------------------------------------------------ *)
(** *** Responses *)

Record Report := {
  rep_employeeId : string;
  employeeName : string;
  employeeRole : option string;
  period : string;
  startDate : option string;
  endDate : option string;
  totalDays : Z;
  totalHours : float;
  lateDays : Z
}.

Inductive Data :=
| NoData
| ErrorText (error : string)
| IndexInstructions (indexError instructions : string)
| AttendanceData (id : DocId) (a : option Attendance)
| QrCodeData (qrData : QrPayload)
| ReportData (report : Report)
| ReportsData (reports : list Report).

(** [res.status(status).json({ success, message, ... })] *)
Record Response := {
  status : Z;
  success : bool;
  message : string;
  data : Data
}.

(* ================================================================== *)
(** ** The store and the handler monad *)

Record World := { db : Db; outbox : list Email }.

(** A handler step either has sent the response ([return res...]) or
    goes on with a value. *)
Inductive Step (A : Type) :=
| Reply (r : Response)
| Next (a : A).
Arguments Reply {A} r.
Arguments Next {A} a.

Definition Handler (A : Type) := World -> Step A * World.

Definition ret {A} (a : A) : Handler A := fun w => (Next a, w).

Definition bind {A B} (c : Handler A) (k : A -> Handler B) : Handler B :=
  fun w => match c w with
           | (Reply r, w') => (Reply r, w')
           | (Next a, w') => k a w'
           end.

Declare Scope handler_scope.
Delimit Scope handler_scope with handler.
Notation "x <- c ;; k" := (bind c (fun x => k))
  (at level 61, c at next level, right associativity) : handler_scope.
Notation "c ;; k" := (bind c (fun _ => k))
  (at level 61, right associativity) : handler_scope.
Local Open Scope handler_scope.

Definition reply {A} (st : Z) (ok : bool) (msg : string) (d : Data) : Handler A :=
  fun w => (Reply {| status := st; success := ok; message := msg; data := d |}, w).

(** An exception that reaches the handler's outer [catch]. *)
Definition throw {A} (msg : string) : Handler A :=
  reply 500 false "Server error" (ErrorText msg).

Definition when (b : bool) (h : Handler unit) : Handler unit :=
  if b then h else ret tt.

(** The response and the world a handler ends with. *)
Definition run (h : Handler Empty_set) (w : World) : Response * World :=
  match h w with
  | (Reply r, w') => (r, w')
  | (Next e, _) => match e with end
  end.

(* ------------------------------------------------------------------ *)
(** *** Firestore timestamps *)

Module Timestamp.

(** A [Timestamp] holds the instants of the years 1 to 9999: its seconds
    are from -62135596800 to 253402300799. *)
Definition minSeconds : Z := -62135596800.
Definition maxSeconds : Z := 253402300799.

(** [Math.floor(milliseconds / 1000)] *)
Definition seconds (t : Instant) : Z := t / 1000.

Definition holds (t : Instant) : bool :=
  (minSeconds <=? seconds t) && (seconds t <=? maxSeconds).

Definition quote : string := String "034"%char EmptyString.

(** The message of the error the constructor of [Timestamp] throws for
    seconds out of range (the range check of the Firestore library). *)
Definition outOfRange (t : Instant) : string :=
  ("Value for argument " ++ quote ++ "seconds" ++ quote
   ++ " must be within [-62135596800, 253402300799] inclusive, but was: "
   ++ (if (seconds t <? 0)%Z then "-" else "")
   ++ JsNumber.digits (Z.abs (seconds t)))%string.

(** [admin.firestore.Timestamp.fromDate(new Date(t))] *)
Definition fromDate (t : Instant) : Handler Instant :=
  if holds t then ret t else throw (outOfRange t).

(** The clock reads a present instant: it and the thirty days before it
    are instants a [Timestamp] holds.  [fromClock clock t] is
    [Timestamp.fromDate] of a date that a handler has computed from the
    clock: in those thirty days it is held, and otherwise it is checked
    as any other date is. *)
Definition fromClock (clock t : Instant) : Handler Instant :=
  if (clock - 30 * JsDate.msPerDay <=? t) && (t <=? clock) then ret t
  else fromDate t.

End Timestamp.

Module Store.

Fixpoint lookup {A} (key : string) (l : list (string * A)) : option A :=
  match l with
  | [] => None
  | (k, v) :: l' => if (k =? key)%string then Some v else lookup key l'
  end.

(** [db().collection(EMPLOYEES).doc(id).get()] *)
Definition getEmployee (id : string) : Handler (option Employee) :=
  fun w => (Next (lookup id (employees (db w))), w).

(** [.where("employeeId", "==", id)] *)
Definition whereEmployee (id : string) (docs : list Doc) : list Doc :=
  filter (fun d => (employeeId (snd d) =? id)%string) docs.

(** [.where("entryTime", ">=", from).where("entryTime", "<=", to)];
    a document without the field does not match. *)
Definition whereEntryBetween (from to : Instant) (docs : list Doc) : list Doc :=
  filter (fun d => match entryTime (snd d) with
                   | Some t => (from <=? t) && (t <=? to)
                   | None => false
                   end) docs.

Fixpoint insertBy {A} (before : A -> A -> bool) (x : A) (l : list A) : list A :=
  match l with
  | [] => [x]
  | y :: l' => if before y x then y :: insertBy before x l' else x :: y :: l'
  end.

(** A stable sort: [before y x] tells that [y] may stay ahead of a
    later [x]. *)
Definition sortBy {A} (before : A -> A -> bool) (l : list A) : list A :=
  fold_left (fun acc x => insertBy before x acc) l [].

(** [doc.data().entryTime?.toDate?.() || new Date(0)] *)
Definition entryOrEpoch (d : Doc) : Instant :=
  match entryTime (snd d) with Some t => t | None => 0 end.

Definition byEntryDesc (docs : list Doc) : list Doc :=
  sortBy (fun y x => entryOrEpoch x <=? entryOrEpoch y) docs.

Definition byEntryAsc (docs : list Doc) : list Doc :=
  sortBy (fun y x => entryOrEpoch y <=? entryOrEpoch x) docs.

(** The query on [employeeId] alone: the documents, or the message of
    the error Firestore raised. *)
Definition queryEmployee (env : Env) (id : string)
  : Handler (string + list Doc) :=
  fun w => (Next match simpleQueryError env with
                 | Some msg => inl msg
                 | None => inr (whereEmployee id (attendance (db w)))
                 end, w).

(** The query on [employeeId] and a range of [entryTime]; Firestore
    returns its result ordered by [entryTime], descending when the
    query says so. *)
Definition queryEmployeeRange (env : Env) (id : string) (from to : Instant)
    (desc : bool) : Handler (string + list Doc) :=
  fun w => (Next match compositeQueryError env with
                 | Some msg => inl msg
                 | None =>
                     let docs := whereEntryBetween from to
                                   (whereEmployee id (attendance (db w))) in
                     inr (if desc then byEntryDesc docs else byEntryAsc docs)
                 end, w).

Definition freshId (docs : list Doc) : DocId :=
  S (fold_right Nat.max O (map fst docs)).

(** [collection(ATTENDANCE).add(data)] *)
Definition add (a : Attendance) : Handler DocId :=
  fun w =>
    let id := freshId (attendance (db w)) in
    (Next id,
     {| db := {| employees := employees (db w);
                 attendance := attendance (db w) ++ [(id, a)] |};
        outbox := outbox w |}).

Fixpoint find (id : DocId) (docs : list Doc) : option Attendance :=
  match docs with
  | [] => None
  | (i, a) :: docs' => if Nat.eqb i id then Some a else find id docs'
  end.

(** [collection(ATTENDANCE).doc(id).get()] *)
Definition get (id : DocId) : Handler (option Attendance) :=
  fun w => (Next (find id (attendance (db w))), w).

Definition modify (id : DocId) (f : Attendance -> Attendance) (docs : list Doc)
  : list Doc :=
  map (fun d => if Nat.eqb (fst d) id then (fst d, f (snd d)) else d) docs.

(** [collection(ATTENDANCE).doc(id).update(fields)] *)
Definition update (id : DocId) (f : Attendance -> Attendance) : Handler unit :=
  fun w =>
    (Next tt,
     {| db := {| employees := employees (db w);
                 attendance := modify id f (attendance (db w)) |};
        outbox := outbox w |}).

End Store.

(** [sendEmailAndNotify(...).catch(...)]: fire and forget. *)
Definition sendEmailAndNotify (to subj : string) (type : option string)
  : Handler unit :=
  fun w => (Next tt,
            {| db := db w;
               outbox := outbox w
                         ++ [{| recipient := to; subject := subj; kind := type |}] |}).

(** [message.includes(sub)] *)
Definition includes (message sub : string) : bool :=
  match String.index 0 sub message with Some _ => true | None => false end.

(** [indexError.message && indexError.message.includes('index')] *)
Definition isIndexError (message : string) : bool := includes message "index".

(** The location validation every entry handler performs: the distance in
    degrees to the allowed location, times 111000. *)
Definition locationDistance (cfg : Config) (coordinates : Coordinates) : float :=
  (PrimFloat.sqrt (JsNumber.pow2 (fst coordinates - allowedLng cfg)
         + JsNumber.pow2 (snd coordinates - allowedLat cfg)) * 111000)%float.

Definition isSet {A} (field : option A) : bool :=
  match field with Some _ => true | None => false end.

(** [req.user.id !== employeeId && req.user.role !== "admin"] *)
Definition notAuthorized (user : User) (id : string) : bool :=
  negb (user_id user =? id)%string && negb (user_role user =? "admin")%string.

(* ================================================================== *)
(** ** attendanceController: manual entry and exit

    A handler is given the body of a request that passed its validation
    middleware (a 400 "Validation errors" otherwise) and the user the
    authentication middleware attached to it. *)

Module AttendanceController.

Record EntryBody := {
  ent_employeeId : string;
  ent_entryTime : Instant;
  ent_location : Coordinates;
  ent_method : Method
}.

Record ExitBody := {
  ext_employeeId : string;
  ext_exitTime : Instant;
  ext_location : Coordinates
}.

Definition recordAttendance (cfg : Config) (env : Env) (user : User)
    (body : EntryBody) : Handler Empty_set :=
  let id := ent_employeeId body in
  employeeDoc <- Store.getEmployee id ;;
  match employeeDoc with
  | None => reply 404 false "Employee not found" NoData
  | Some employee =>
    when (notAuthorized user id)
      (reply 403 false
         "Access denied: Can only record own attendance or requires admin role"
         NoData) ;;
    (* Check if there's already an open attendance (no exit time) *)
    openAttendanceSnapshot <- Store.queryEmployee env id ;;
    match openAttendanceSnapshot with
    | inr docs =>
        let hasOpenAttendance :=
          existsb (fun doc => negb (isSet (exitTime (snd doc)))) docs in
        when hasOpenAttendance
          (reply 400 false
             "You already have an open attendance entry. Please record exit time first before creating a new entry."
             NoData)
    | inl checkError =>
        (* Continue if check fails - don't block attendance recording *)
        ret tt
    end ;;
    (* Location validation *)
    let distance := locationDistance cfg (ent_location body) in
    when (JsNumber.gtb distance (allowedRadius cfg))
      (sendEmailAndNotify (email employee) "Unauthorized Location Attempt"
         (Some "location_issue") ;;
       reply 400 false "Location outside allowed area" NoData) ;;
    (* Late attendance notification *)
    when (9 <=? JsDate.getHours (tzOffset cfg) (ent_entryTime body))
      (sendEmailAndNotify (email employee) "Late Attendance Notification"
         (Some "late_arrival")) ;;
    (* Create attendance record in Firestore *)
    entryStamp <- Timestamp.fromDate (ent_entryTime body) ;;
    attendanceId <- Store.add
      {| employeeId := id;
         entryTime := Some entryStamp;
         exitTime := None;
         location := ent_location body;
         exitLocation := None;
         method := ent_method body;
         createdAt := now env;
         updatedAt := None |} ;;
    attendanceDoc <- Store.get attendanceId ;;
    reply 201 true "Attendance recorded successfully"
      (AttendanceData attendanceId attendanceDoc)
  end.

(** The fields [recordExit] writes. *)
Definition withExit (exitDateTime : Instant) (coordinates : Coordinates)
    (updated : Instant) (a : Attendance) : Attendance :=
  {| employeeId := employeeId a;
     entryTime := entryTime a;
     exitTime := Some exitDateTime;
     location := location a;
     exitLocation := Some coordinates;
     method := method a;
     createdAt := createdAt a;
     updatedAt := Some updated |}.

(** The attendance of the employee in the 30 days around now, most
    recent first, or all of it when the index is missing.  Both bounds
    are within thirty days of the clock: instants a [Timestamp] holds. *)
Definition exitSnapshot (env : Env) (id : string) : Handler (list Doc) :=
  let startDate := now env - 30 * 24 * 60 * 60 * 1000 in
  let endDate := now env + 30 * 24 * 60 * 60 * 1000 in
  attempt <- Store.queryEmployeeRange env id startDate endDate true ;;
  match attempt with
  | inr docs => ret docs
  | inl indexError =>
      if isIndexError indexError then
        fallback <- Store.queryEmployee env id ;;
        match fallback with
        | inr docs => ret docs
        | inl error => throw error
        end
      else throw indexError
  end.

(** The first record without [exitTime]. *)
Definition firstOpen (docs : list Doc) : option Doc :=
  List.find (fun doc => negb (isSet (exitTime (snd doc)))) docs.

Definition recordExit (cfg : Config) (env : Env) (user : User)
    (body : ExitBody) : Handler Empty_set :=
  let id := ext_employeeId body in
  employeeDoc <- Store.getEmployee id ;;
  match employeeDoc with
  | None => reply 404 false "Employee not found" NoData
  | Some employee =>
    attendanceSnapshot <- exitSnapshot env id ;;
    (* Sort in memory if we used fallback query *)
    let docs := Store.byEntryDesc attendanceSnapshot in
    match firstOpen docs with
    | None =>
        reply 400 false
          "No entry attendance found for today. Please record entry first."
          NoData
    | Some (existingAttendanceId, existingAttendance) =>
      let exitDateTime := ext_exitTime body in
      match entryTime existingAttendance with
      | None => throw "Cannot read properties of undefined (reading 'toDate')"
      | Some entryDateTime =>
        when (exitDateTime <=? entryDateTime)
          (reply 400 false "Exit time must be after entry time" NoData) ;;
        Store.update existingAttendanceId
          (withExit exitDateTime (ext_location body) (now env)) ;;
        updatedDoc <- Store.get existingAttendanceId ;;
        sendEmailAndNotify id "Exit Recorded" None ;;
        reply 200 true "Exit time recorded successfully"
          (AttendanceData existingAttendanceId updatedDoc)
      end
    end
  end.

End AttendanceController.

(* ================================================================== *)
(** ** attendanceMethodsController: QR codes and facial recognition *)

Module AttendanceMethodsController.

Record ScanBody := {
  scan_qrData : QrData;
  scan_location : Coordinates;
  scan_entryTime : Instant
}.

Record FacialBody := {
  fac_employeeId : string;
  fac_faceTemplate : list float;
  fac_entryTime : Instant;
  fac_location : Coordinates
}.

(** [typeof id === "string" && id.length > 0] *)
Definition isValidFirebaseId (id : option string) : bool :=
  match id with
  | Some s => negb (s =? "")%string
  | None => false
  end.

Definition generateQrCode (env : Env) (user : User) (id : string)
  : Handler Empty_set :=
  employeeDoc <- Store.getEmployee id ;;
  match employeeDoc with
  | None => reply 404 false "Employee not found" NoData
  | Some _ =>
    when (notAuthorized user id)
      (reply 403 false
         "Access denied: Can only generate QR code for yourself or requires admin role"
         NoData) ;;
    let qrData :=
      {| qr_employeeId := Some id;
         timestamp := Some (now env);
         expiresAt := Some (now env + 12 * 60 * 60 * 1000) |} in
    (* the response carries the image of a QR code that encodes [qrData] *)
    reply 200 true "QR code generated successfully" (QrCodeData qrData)
  end.

(** [Date.now() - timestamp > 5 * 60 * 1000]; the comparison is false
    when [timestamp] is not a number. *)
Definition qrExpired (env : Env) (ts : option Instant) : bool :=
  match ts with
  | Some t => 5 * 60 * 1000 <? now env - t
  | None => false
  end.

Definition scanQrCode (cfg : Config) (env : Env) (user : User)
    (body : ScanBody) : Handler Empty_set :=
  match scan_qrData body with
  | BadJson => reply 400 false "Invalid QR data format" NoData
  | JsonNull =>
      throw "Cannot destructure property 'employeeId' of 'parsedData' as it is null."
  | JsonObject parsedData =>
    when (negb (isValidFirebaseId (qr_employeeId parsedData)))
      (reply 400 false "Invalid employeeId in QR data" NoData) ;;
    let id := match qr_employeeId parsedData with Some s => s | None => "" end in
    (* Check if requester is authorized *)
    when (notAuthorized user id)
      (reply 403 false
         "Access denied: Can only scan own QR code or requires admin role"
         NoData) ;;
    employeeDoc <- Store.getEmployee id ;;
    match employeeDoc with
    | None => reply 404 false "Employee not found" NoData
    | Some employee =>
      (* Validate QR code timestamp (5-minute expiry) *)
      when (qrExpired env (timestamp parsedData))
        (sendEmailAndNotify (email employee) "Expired QR Code Attempt"
           (Some "expired_qr") ;;
         reply 401 false "Invalid or expired QR code" NoData) ;;
      (* Location validation *)
      let distance := locationDistance cfg (scan_location body) in
      when (JsNumber.gtb distance (allowedRadius cfg))
        (sendEmailAndNotify (email employee) "Unauthorized Location Attempt"
           (Some "location_issue") ;;
         reply 400 false "Location outside allowed area" NoData) ;;
      (* Late attendance notification *)
      when (9 <=? JsDate.getHours (tzOffset cfg) (scan_entryTime body))
        (sendEmailAndNotify (email employee) "Late Attendance Notification"
           (Some "late_arrival")) ;;
      (* Create attendance record in Firestore *)
      entryStamp <- Timestamp.fromDate (scan_entryTime body) ;;
      attendanceId <- Store.add
        {| employeeId := id;
           entryTime := Some entryStamp;
           exitTime := None;
           location := scan_location body;
           exitLocation := None;
           method := qr;
           createdAt := now env;
           updatedAt := None |} ;;
      attendanceDoc <- Store.get attendanceId ;;
      reply 201 true "QR code attendance recorded successfully"
        (AttendanceData attendanceId attendanceDoc)
    end
  end.

Definition calculateDistance (descriptor1 descriptor2 : option (list float))
  : float :=
  match descriptor1, descriptor2 with
  | Some d1, Some d2 =>
      if negb (List.length d1 =? List.length d2)%nat then infinity
      else PrimFloat.sqrt
             (fold_left
                (fun sum vals =>
                   (sum + JsNumber.pow2 (fst vals - snd vals))%float)
                (combine d1 d2) 0%float)
  | _, _ => infinity
  end.

(** [(100 - distance * 100).toFixed(1)] *)
Definition confidence (distance : float) : string :=
  JsNumber.toFixed1 (100 - distance * 100)%float.

Definition notRecognized (distance : float) : string :=
  ("Face not recognized (confidence: " ++ confidence distance
   ++ "%). Please ensure good lighting, face the camera directly, and hold still. If this persists, re-register your face in Profile.")%string.

Definition facialAttendance (cfg : Config) (env : Env) (user : User)
    (body : FacialBody) : Handler Empty_set :=
  let id := fac_employeeId body in
  when (user_id user =? "")%string
    (reply 401 false "Authentication failed. Please log in again." NoData) ;;
  let userIdStr := user_id user in
  employeeDoc <- Store.getEmployee id ;;
  match employeeDoc with
  | None =>
      reply 404 false
        "Employee not found. Please ensure the employee account exists." NoData
  | Some employee =>
    when (negb (isSet (faceDescriptor employee)))
      (reply 400 false
         "Face not registered. Please register your face in Profile page first."
         NoData) ;;
    (* Compare face descriptors *)
    let distance :=
      calculateDistance (Some (fac_faceTemplate body)) (faceDescriptor employee) in
    when (JsNumber.geb distance 0.6)
      (reply 400 false (notRecognized distance) NoData) ;;
    (* Authorization check *)
    when (negb (userIdStr =? id)%string && negb (user_role user =? "admin")%string)
      (reply 403 false
         "Access denied: You can only record your own facial attendance. Admins can record for any employee."
         NoData) ;;
    (* Location validation *)
    let distanceCheck := locationDistance cfg (fac_location body) in
    when (JsNumber.gtb distanceCheck (allowedRadius cfg))
      (sendEmailAndNotify (email employee) "Unauthorized Location Attempt"
         (Some "location_issue") ;;
       reply 400 false "Location outside allowed area" NoData) ;;
    (* Late attendance notification *)
    when (9 <=? JsDate.getHours (tzOffset cfg) (fac_entryTime body))
      (sendEmailAndNotify (email employee) "Late Attendance Notification"
         (Some "late_arrival")) ;;
    (* Record attendance *)
    entryStamp <- Timestamp.fromDate (fac_entryTime body) ;;
    attendanceId <- Store.add
      {| employeeId := id;
         entryTime := Some entryStamp;
         exitTime := None;
         location := fac_location body;
         exitLocation := None;
         method := facial;
         createdAt := now env;
         updatedAt := None |} ;;
    attendanceDoc <- Store.get attendanceId ;;
    reply 201 true "Facial attendance recorded successfully"
      (AttendanceData attendanceId attendanceDoc)
  end.

End AttendanceMethodsController.

(** The distance of the specification, [sqrt(sum (a_i - b_i)^2)], on the
    exact values of the coordinates: its square. *)
Definition euclideanSquared (a b : list float) : Q :=
  fold_left
    (fun sum vals =>
       (sum + (JsNumber.exact (fst vals) - JsNumber.exact (snd vals)) ^ 2)%Q)
    (combine a b) 0%Q.

(* ================================================================== *)
(** ** attendanceReportsController: presence reports *)

Module AttendanceReportsController.

Inductive Period := daily | weekly | monthly.

Definition periodName (p : Period) : string :=
  match p with daily => "daily" | weekly => "weekly" | monthly => "monthly" end.

(** The validated query of [getPresenceReport]: [period] and
    [startDate] are required, [endDate] is optional. *)
Record ReportQuery := {
  q_period : Period;
  q_startDate : Instant;
  q_endDate : option Instant
}.

(** A date parameter of [getAllPresenceReports], which is not
    validated: the text received and the instant [new Date] reads in
    it.  An empty parameter is an absent one. *)
Record DateParam := { raw : string; instant : Instant }.

Record AllReportsQuery := {
  all_period : option string;
  all_startDate : option DateParam;
  all_endDate : option DateParam
}.

Definition weekOf (tz : Z) (startDate : Instant) : Instant * Instant :=
  let start := JsDate.startOfDay tz startDate in
  (start, JsDate.addDays 7 start).

Definition monthOf (tz : Z) (startDate : Instant) : Instant * Instant :=
  let start := JsDate.setDate1 tz (JsDate.startOfDay tz startDate) in
  (start, JsDate.addMonth tz start).

(** [start] and [end] of [getPresenceReport], when both are set. *)
Definition window (cfg : Config) (q : ReportQuery) : option (Instant * Instant) :=
  match q_period q with
  | weekly => Some (weekOf (tzOffset cfg) (q_startDate q))
  | monthly => Some (monthOf (tzOffset cfg) (q_startDate q))
  | daily =>
      match q_endDate q with
      | Some endDate => Some (q_startDate q, endDate)
      | None => None
      end
  end.

(** The query of a report on the window from [start] to [end], in its
    [try]: the documents, or the message of the error that is caught.
    [compositeQueryError] is the error of a query that was run, one whose
    bounds [Timestamp.fromDate] had converted; a query that runs has its
    bounds converted first, [start] before [end], and a bound that no
    [Timestamp] holds throws in their place. *)
Definition queryWindow (env : Env) (id : string) (start end_ : Instant)
  : Handler (string + list Doc) :=
  match compositeQueryError env with
  | Some indexError => ret (inl indexError)
  | None =>
      if negb (Timestamp.holds start) then ret (inl (Timestamp.outOfRange start))
      else if negb (Timestamp.holds end_)
           then ret (inl (Timestamp.outOfRange end_))
      else Store.queryEmployeeRange env id start end_ false
  end.

(** [(exitDate - entryDate) / (1000 * 60 * 60)] *)
Definition hoursWorked (entryDate exitDate : Instant) : float :=
  (JsNumber.float_of_Z (exitDate - entryDate) / 3600000)%float.

Definition tally (report : Report) (days : Z) (hours : float) (late : Z)
  : Report :=
  {| rep_employeeId := rep_employeeId report;
     employeeName := employeeName report;
     employeeRole := employeeRole report;
     period := period report;
     startDate := startDate report;
     endDate := endDate report;
     totalDays := days;
     totalHours := hours;
     lateDays := late |}.

(** The report before any record is counted. *)
Definition newReport (id employeeName : string) (employeeRole : option string)
    (period : string) (dates : option string * option string) : Report :=
  {| rep_employeeId := id;
     employeeName := employeeName;
     employeeRole := employeeRole;
     period := period;
     startDate := fst dates;
     endDate := snd dates;
     totalDays := 0;
     totalHours := 0;
     lateDays := 0 |}.

(** The body of [attendanceRecords.forEach]. *)
Definition accumulate (tz : Z) (report : Report) (record : Attendance) : Report :=
  match entryTime record with
  | None => report
  | Some entryDate =>
      let days := totalDays report + 1 in
      let late := if 9 <=? JsDate.getHours tz entryDate
                  then lateDays report + 1 else lateDays report in
      (* Calculate hours worked - ONLY count actual recorded hours *)
      match exitTime record with
      | Some exitDate =>
          tally report days
            (totalHours report + hoursWorked entryDate exitDate)%float late
      | None => tally report days (totalHours report) late
      end
  end.

Definition aggregate (tz : Z) (report : Report) (records : list Attendance)
  : Report :=
  fold_left (accumulate tz) records report.

Definition getPresenceReport (cfg : Config) (env : Env) (user : User)
    (id : string) (q : ReportQuery) : Handler Empty_set :=
  employeeDoc <- Store.getEmployee id ;;
  match employeeDoc with
  | None => reply 404 false "Employee not found" NoData
  | Some employee =>
    let range := window cfg q in
    attendanceSnapshot <-
      match range with
      | Some (start, end_) =>
          attempt <- queryWindow env id start end_ ;;
          match attempt with
          | inr docs => ret docs
          | inl indexError =>
              (* If index error, log helpful message and return error
                 with index link *)
              if isIndexError indexError then
                reply 500 false
                  "Database index required. Please create the index and try again."
                  (IndexInstructions indexError
                     "Click the link in the error message to create the required Firestore index. This only needs to be done once.")
              else throw indexError
          end
      | None =>
          result <- Store.queryEmployee env id ;;
          match result with
          | inr docs => ret docs
          | inl error => throw error
          end
      end ;;
    (* each record is returned with the employee it names, which the
       report does not read *)
    let attendanceRecords := map snd attendanceSnapshot in
    let report :=
      newReport id (name employee) None (periodName (q_period q))
        (option_map (fun r => JsDate.isoDate (fst r)) range,
         option_map (fun r => JsDate.isoDate (snd r)) range) in
    reply 200 true "Presence report generated successfully"
      (ReportData (aggregate (tzOffset cfg) report attendanceRecords))
  end.

Definition truthy (s : option string) : bool :=
  match s with Some t => negb (t =? "")%string | None => false end.

Definition isPeriod (p : option string) (label : string) : bool :=
  match p with Some t => (t =? label)%string | None => false end.

Definition noDates (q : AllReportsQuery) : bool :=
  negb (truthy (all_period q)) && negb (isSet (all_startDate q))
  && negb (isSet (all_endDate q)).

(** [employee.hireDate || employee.createdAt] *)
Definition hiredAt (employee : Employee) : option Instant :=
  match hireDate employee with
  | Some h => Some h
  | None => emp_createdAt employee
  end.

(** [start] and [end] of [getAllPresenceReports] for one employee. *)
Definition windowFor (cfg : Config) (env : Env) (employee : Employee)
    (q : AllReportsQuery) : option (Instant * Instant) :=
  let tz := tzOffset cfg in
  if noDates q then
    match hiredAt employee with
    | Some h => Some (JsDate.startOfDay tz h, JsDate.endOfDay tz (now env))
    | None => None
    end
  else
    match all_startDate q with
    | Some startDate =>
        if isPeriod (all_period q) "weekly" then Some (weekOf tz (instant startDate))
        else if isPeriod (all_period q) "monthly"
             then Some (monthOf tz (instant startDate))
        else match all_endDate q with
             | Some endDate => Some (instant startDate, instant endDate)
             | None => None
             end
    | None => None
    end.

(** [reportStartDate] and [reportEndDate]. *)
Definition reportDates (env : Env) (employee : Employee) (q : AllReportsQuery)
    (range : option (Instant * Instant)) : option string * option string :=
  if noDates q then
    match hiredAt employee with
    | Some h => (Some (JsDate.isoDate h), Some (JsDate.isoDate (now env)))
    | None => (None, None)
    end
  else
    match range with
    | Some (start, end_) => (Some (JsDate.isoDate start), Some (JsDate.isoDate end_))
    | None => (option_map raw (all_startDate q), option_map raw (all_endDate q))
    end.

(** The attendance one employee's report is computed from. *)
Definition snapshotFor (env : Env) (id : string)
    (range : option (Instant * Instant)) : Handler (list Doc) :=
  match range with
  | Some (start, end_) =>
      attempt <- queryWindow env id start end_ ;;
      match attempt with
      | inr docs => ret docs
      | inl indexError =>
          (* If index error occurs, continue without date filter for
             this employee *)
          if isIndexError indexError then
            fallback <- Store.queryEmployee env id ;;
            match fallback with
            | inr docs => ret docs
            | inl error => throw error
            end
          else throw indexError
      end
  | None =>
      result <- Store.queryEmployee env id ;;
      match result with
      | inr docs => ret docs
      | inl error => throw error
      end
  end.

(** [period || "all-time"] *)
Definition reportPeriod (q : AllReportsQuery) : string :=
  match all_period q with
  | Some p => if (p =? "")%string then "all-time" else p
  | None => "all-time"
  end.

(** One turn of the loop over the employees. *)
Definition reportFor (cfg : Config) (env : Env) (q : AllReportsQuery)
    (employeeDoc : string * Employee) : Handler Report :=
  let id := fst employeeDoc in
  let employee := snd employeeDoc in
  let range := windowFor cfg env employee q in
  attendanceSnapshot <- snapshotFor env id range ;;
  let attendanceRecords := map snd attendanceSnapshot in
  let report :=
    newReport id (name employee) (Some (role employee)) (reportPeriod q)
      (reportDates env employee q range) in
  ret (aggregate (tzOffset cfg) report attendanceRecords).

Fixpoint forEmployees (cfg : Config) (env : Env) (q : AllReportsQuery)
    (docs : list (string * Employee)) (reports : list Report)
  : Handler (list Report) :=
  match docs with
  | [] => ret reports
  | employeeDoc :: rest =>
      report <- reportFor cfg env q employeeDoc ;;
      forEmployees cfg env q rest (reports ++ [report])
  end.

Definition getAllPresenceReports (cfg : Config) (env : Env) (user : User)
    (q : AllReportsQuery) : Handler Empty_set :=
  fun w =>
    (reports <- forEmployees cfg env q (employees (db w)) [] ;;
     reply 200 true "All presence reports generated successfully"
       (ReportsData reports)) w.

End AttendanceReportsController.

(* ================================================================== *)
(** ** Sessions *)

(** The open sessions of an employee: the records without [exitTime]. *)
Definition openSessions (id : string) (d : Db) : list Doc :=
  filter (fun doc => negb (isSet (exitTime (snd doc))))
    (Store.whereEmployee id (attendance d)).

(** Document ids are unique in a collection. *)
Definition uniqueIds (d : Db) : Prop := NoDup (map fst (attendance d)).

(** The invariant of the session store: no employee has two open
    sessions. *)
Definition atMostOneOpen (d : Db) : Prop :=
  forall id, (List.length (openSessions id d) <= 1)%nat.

(** The requests that write to the attendance collection. *)
Inductive Request :=
| ManualEntry (user : User) (body : AttendanceController.EntryBody)
| ManualExit (user : User) (body : AttendanceController.ExitBody)
| QrScan (user : User) (body : AttendanceMethodsController.ScanBody)
| FaceEntry (user : User) (body : AttendanceMethodsController.FacialBody).

Definition handle (cfg : Config) (env : Env) (r : Request) : Handler Empty_set :=
  match r with
  | ManualEntry user body => AttendanceController.recordAttendance cfg env user body
  | ManualExit user body => AttendanceController.recordExit cfg env user body
  | QrScan user body => AttendanceMethodsController.scanQrCode cfg env user body
  | FaceEntry user body =>
      AttendanceMethodsController.facialAttendance cfg env user body
  end.

(** Requests served one after the other, each with the clock and the
    store capabilities of its moment. *)
Fixpoint serve (cfg : Config) (requests : list (Env * Request)) (w : World)
  : World :=
  match requests with
  | [] => w
  | (env, r) :: rest => serve cfg rest (snd (run (handle cfg env r) w))
  end.

Definition isManual (r : Request) : bool :=
  match r with ManualEntry _ _ | ManualExit _ _ => true | _ => false end.

(** The records a report counts: those with [entryTime]. *)
Definition hasEntry (record : Attendance) : bool := isSet (entryTime record).


(* ================================================================== *)
(** ** Sample data *)

Module Sample.

(** The default allowed location. *)
Definition office : Coordinates := (8.8362755, 33.1245286)%float.

Definition template (first : float) : list float := first :: repeat 0%float 127.

Definition amal : Employee :=
  {| name := "Amal"; email := "amal@example.com"; role := "employee";
     faceDescriptor := Some (template 0); hireDate := None;
     emp_createdAt := None |}.

Definition asAmal : User := {| user_id := "E1"; user_role := "employee" |}.
Definition asOther : User := {| user_id := "E2"; user_role := "employee" |}.

(** 2025-11-13T09:00:00Z *)
Definition nine : Instant := 1763024400000.
Definition minute : Z := 60 * 1000.
Definition hour : Z := 60 * minute.

Definition clock : Env :=
  {| now := nine; compositeQueryError := None; simpleQueryError := None |}.


Definition entryAt (t : Instant) (m : Method) : Attendance :=
  {| employeeId := "E1"; entryTime := Some t; exitTime := None;
     location := office; exitLocation := None; method := m;
     createdAt := t; updatedAt := None |}.

Definition empty : World :=
  {| db := {| employees := [("E1", amal)]; attendance := [] |}; outbox := [] |}.

(** Amal has entered at nine and has not left. *)
Definition entered : World :=
  {| db := {| employees := [("E1", amal)];
              attendance := [(1%nat, entryAt nine manual)] |};
     outbox := [] |}.

(** A closed session a year earlier and a closed one at nine. *)
Definition twoYears : World :=
  {| db := {| employees := [("E1", amal)];
              attendance :=
                [(1%nat, AttendanceController.withExit
                           (nine - 365 * JsDate.msPerDay + 8 * hour) office nine
                           (entryAt (nine - 365 * JsDate.msPerDay) manual));
                 (2%nat, AttendanceController.withExit
                           (nine + 8 * hour) office nine (entryAt nine manual))] |};
     outbox := [] |}.

Definition manualEntry : AttendanceController.EntryBody :=
  {| AttendanceController.ent_employeeId := "E1";
     AttendanceController.ent_entryTime := nine;
     AttendanceController.ent_location := office;
     AttendanceController.ent_method := manual |}.

Definition exitAt (t : Instant) : AttendanceController.ExitBody :=
  {| AttendanceController.ext_employeeId := "E1";
     AttendanceController.ext_exitTime := t;
     AttendanceController.ext_location := office |}.

(** A scan of a code issued [age] milliseconds ago. *)
Definition scan (age : Z) (expires : option Instant)
  : AttendanceMethodsController.ScanBody :=
  {| AttendanceMethodsController.scan_qrData :=
       JsonObject {| qr_employeeId := Some "E1";
                     timestamp := Some (nine - age);
                     expiresAt := expires |};
     AttendanceMethodsController.scan_location := office;
     AttendanceMethodsController.scan_entryTime := nine |}.

(** A face whose first coordinate is [first], all others zero. *)
Definition face (first : float) : AttendanceMethodsController.FacialBody :=
  {| AttendanceMethodsController.fac_employeeId := "E1";
     AttendanceMethodsController.fac_faceTemplate := template first;
     AttendanceMethodsController.fac_entryTime := nine;
     AttendanceMethodsController.fac_location := office |}.

Definition thisWeek : AttendanceReportsController.ReportQuery :=
  {| AttendanceReportsController.q_period := AttendanceReportsController.weekly;
     AttendanceReportsController.q_startDate := nine;
     AttendanceReportsController.q_endDate := None |}.


End Sample.

(* ================================================================== *)
(** ** Read-only endpoints

    [getAttendance] of attendanceController and [getAllEmployees],
    [getTotalAttendanceCount] and [getDailyStats] of
    attendanceReportsController.  Each runs one query that no [catch] of
    its own guards: the query's error, when it raises one, is a
    parameter of the handler. *)

(** The body of a 200 response: its message and its data. *)
Record Found (A : Type) := { found_message : string; found_data : A }.
Arguments found_message {A} f.
Arguments found_data {A} f.

(** The response a read-only handler ends with: an error response, or
    the 200 response. *)
Definition answer {A} (h : Handler (Found A)) (w : World)
  : (Response + Found A) * World :=
  match h w with
  | (Reply r, w') => (inl r, w')
  | (Next a, w') => (inr a, w')
  end.

Module AttendanceHistory.

(** [{ id, name, email }] of the employee a record names. *)
Record EmployeeInfo := {
  info_id : string;
  info_name : string;
  info_email : string
}.

(** [{ id: doc.id, ...data, employee }] *)
Record Entry := {
  entry_id : DocId;
  entry_record : Attendance;
  entry_employee : option EmployeeInfo
}.

Definition populate (directory : list (string * Employee)) (doc : Doc) : Entry :=
  {| entry_id := fst doc;
     entry_record := snd doc;
     entry_employee :=
       match Store.lookup (employeeId (snd doc)) directory with
       | Some employee =>
           Some {| info_id := employeeId (snd doc);
                   info_name := name employee;
                   info_email := email employee |}
       | None => None
       end |}.

(** [.orderBy("createdAt", "desc")]; records created at the same instant
    stay in the order of the store. *)
Definition byCreatedDesc (docs : list Doc) : list Doc :=
  Store.sortBy (fun y x => createdAt (snd x) <=? createdAt (snd y)) docs.

Definition getAttendance (orderedQueryError : option string) (user : User)
    (id : string) : Handler (Found (list Entry)) :=
  (* Check authorization *)
  when (notAuthorized user id)
    (reply 403 false
       "Access denied: Can only view own attendance or requires admin role"
       NoData) ;;
  (* Query attendance records for the employee *)
  match orderedQueryError with
  | Some error => throw error
  | None =>
      fun w =>
        let attendanceSnapshot :=
          firstn 7 (byCreatedDesc (Store.whereEmployee id (attendance (db w)))) in
        ret {| found_message := "Attendance retrieved successfully";
               found_data := map (populate (employees (db w))) attendanceSnapshot |}
          w
  end.

End AttendanceHistory.

Module AttendanceStatistics.

(** [{ id: doc.id, name: doc.data().name }] *)
Definition getAllEmployees (user : User) : Handler (Found (list (string * string))) :=
  (* Check if requester is admin *)
  when (negb (user_role user =? "admin")%string)
    (reply 403 false "Access denied: Requires admin role" NoData) ;;
  fun w =>
    ret {| found_message := "Employees retrieved successfully";
           found_data := map (fun doc => (fst doc, name (snd doc)))
                           (employees (db w)) |} w.

(** [attendanceSnapshot.size] of the whole collection. *)
Definition getTotalAttendanceCount (queryError : option string)
  : Handler (Found nat) :=
  match queryError with
  | Some error => throw error
  | None =>
      fun w =>
        ret {| found_message := "Total attendance count retrieved successfully";
               found_data := List.length (attendance (db w)) |} w
  end.

(** [parseInt(req.query.days) || 7]: [days] is what [parseInt] reads,
    [None] for NaN. *)
Definition requestedDays (days : option Z) : Z :=
  match days with
  | Some d => if d =? 0 then 7 else d
  | None => 7
  end.

(** [{ date, count }] *)
Record DayCount := { date : string; count : nat }.

(** [recordDate >= date && recordDate < nextDate] *)
Definition onDay (date : Instant) (record : string * Instant) : bool :=
  (date <=? snd record) && (snd record <? JsDate.addDays 1 date).

(** One turn of the loop over the days: the employees seen on the day
    that starts at [date], each counted once. *)
Definition dayStats (records : list (string * Instant)) (date : Instant)
  : DayCount :=
  let dayRecords := filter (onDay date) records in
  let uniqueEmployees := nodup string_dec (map fst dayRecords) in
  {| date := JsDate.isoDate date; count := List.length uniqueEmployees |}.

(** [{ employeeId, entryTime }] of the records with an [entryTime] from
    [startDate] on. *)
Definition entriesSince (startDate : Instant) (docs : list Doc)
  : list (string * Instant) :=
  flat_map (fun doc => match entryTime (snd doc) with
                       | Some t => if startDate <=? t
                                   then [(employeeId (snd doc), t)] else []
                       | None => []
                       end) docs.

Definition getDailyStats (cfg : Config) (env : Env) (queryError : option string)
    (days : option Z) : Handler (Found (list DayCount)) :=
  let maxDays := Z.min (requestedDays days) 30 in
  let startDate :=
    JsDate.startOfDay (tzOffset cfg) (JsDate.addDays (- maxDays + 1) (now env)) in
  (* Get all attendance records for the period *)
  since <- Timestamp.fromClock (now env) startDate ;;
  match queryError with
  | Some error => throw error
  | None =>
      fun w =>
        let attendanceRecords := entriesSince since (attendance (db w)) in
        let dailyStats :=
          map (fun i => dayStats attendanceRecords
                          (JsDate.addDays (Z.of_nat i) startDate))
            (seq 0 (Z.to_nat maxDays)) in
        ret {| found_message := "Daily statistics retrieved successfully";
               found_data := dailyStats |} w
  end.

End AttendanceStatistics.

(* ================================================================== *)
(** ** What a request asks for *)

Definition isEntry (r : Request) : bool :=
  match r with ManualExit _ _ => false | _ => true end.

Definition requester (r : Request) : User :=
  match r with
  | ManualEntry user _ | ManualExit user _ | QrScan user _ | FaceEntry user _ =>
      user
  end.

(** The employee a request is made for; a scan names it in its code. *)
Definition claimedEmployee (r : Request) : option string :=
  match r with
  | ManualEntry _ body => Some (AttendanceController.ent_employeeId body)
  | ManualExit _ body => Some (AttendanceController.ext_employeeId body)
  | QrScan _ body =>
      match AttendanceMethodsController.scan_qrData body with
      | JsonObject payload => qr_employeeId payload
      | _ => None
      end
  | FaceEntry _ body => Some (AttendanceMethodsController.fac_employeeId body)
  end.

Definition claimedLocation (r : Request) : Coordinates :=
  match r with
  | ManualEntry _ body => AttendanceController.ent_location body
  | ManualExit _ body => AttendanceController.ext_location body
  | QrScan _ body => AttendanceMethodsController.scan_location body
  | FaceEntry _ body => AttendanceMethodsController.fac_location body
  end.

(** [entryTime] of an entry, [exitTime] of an exit. *)
Definition claimedTime (r : Request) : Instant :=
  match r with
  | ManualEntry _ body => AttendanceController.ent_entryTime body
  | ManualExit _ body => AttendanceController.ext_exitTime body
  | QrScan _ body => AttendanceMethodsController.scan_entryTime body
  | FaceEntry _ body => AttendanceMethodsController.fac_entryTime body
  end.

Definition claimedMethod (r : Request) : Method :=
  match r with
  | ManualEntry _ body => AttendanceController.ent_method body
  | QrScan _ _ => qr
  | FaceEntry _ _ => facial
  | ManualExit _ _ => manual
  end.

(** The responses to requests served one after the other, and the world
    they leave. *)
Fixpoint serveAll (cfg : Config) (requests : list (Env * Request)) (w : World)
  : list Response * World :=
  match requests with
  | [] => ([], w)
  | (env, r) :: rest =>
      let result := run (handle cfg env r) w in
      let later := serveAll cfg rest (snd result) in
      (fst result :: fst later, snd later)
  end.

Definition created (responses : list Response) : nat :=
  List.length (filter (fun r => status r =? 201) responses).

(* ================================================================== *)
(** ** More sample data *)

Module Scenario.

(** A server whose local time is UTC+1. *)
Definition tunis : Config :=
  {| allowedLng := allowedLng defaultConfig;
     allowedLat := allowedLat defaultConfig;
     allowedRadius := allowedRadius defaultConfig;
     tzOffset := 60 * 60 * 1000 |}.

(** Four minutes after [Sample.clock]. *)
Definition fourMinutesLater : Env :=
  {| now := Sample.nine + 4 * Sample.minute;
     compositeQueryError := None; simpleQueryError := None |}.


(** Amal entered forty days ago and has not left. *)
Definition stale : World :=
  {| db := {| employees := [("E1", Sample.amal)];
              attendance :=
                [(1%nat, Sample.entryAt (Sample.nine - 40 * JsDate.msPerDay)
                           manual)] |};
     outbox := [] |}.

(** One record a day, over the eight days that end at nine. *)
Definition eightDays : World :=
  {| db := {| employees := [("E1", Sample.amal)];
              attendance :=
                map (fun i => (S i, Sample.entryAt
                                      (Sample.nine - Z.of_nat i * JsDate.msPerDay)
                                      manual))
                  (seq 0 8) |};
     outbox := [] |}.

(** Amal's face was enrolled with a descriptor of 64 numbers. *)
Definition shortDescriptor : World :=
  {| db := {| employees :=
                [("E1", {| name := "Amal"; email := "amal@example.com";
                           role := "employee";
                           faceDescriptor := Some (repeat 0%float 64);
                           hireDate := None; emp_createdAt := None |})];
              attendance := [] |};
     outbox := [] |}.

(** A face next to the threshold: 0.5999999940395355, then
    8.457279182039201e-05, then sixteen times 2^-28, then zeros. *)
Definition nearThreshold : list float :=
  (0x1.333333p-1 :: 0x1.62b958p-14 :: repeat 0x1p-28 16 ++ repeat 0 110)%float.

(** A scan of a code that carries no timestamp. *)
Definition untimed : AttendanceMethodsController.ScanBody :=
  {| AttendanceMethodsController.scan_qrData :=
       JsonObject {| qr_employeeId := Some "E1"; timestamp := None;
                     expiresAt := None |};
     AttendanceMethodsController.scan_location := Sample.office;
     AttendanceMethodsController.scan_entryTime := Sample.nine |}.

(** A session of eight hours at nine, and an open one the day after. *)
Definition closedThenOpen : World :=
  {| db := {| employees := [("E1", Sample.amal)];
              attendance :=
                [(1%nat, AttendanceController.withExit
                           (Sample.nine + 8 * Sample.hour) Sample.office
                           Sample.nine (Sample.entryAt Sample.nine manual));
                 (2%nat, Sample.entryAt (Sample.nine + JsDate.msPerDay)
                           manual)] |};
     outbox := [] |}.

(** The weekly report of the week of 9999-12-28. *)
Definition lastWeekOf9999 : AttendanceReportsController.ReportQuery :=
  {| AttendanceReportsController.q_period := AttendanceReportsController.weekly;
     AttendanceReportsController.q_startDate :=
       JsDate.days_from_civil 9999 12 28 * JsDate.msPerDay;
     AttendanceReportsController.q_endDate := None |}.

(** A manual entry at the office for noon of 0000-06-15. *)
Definition inYearZero : AttendanceController.EntryBody :=
  {| AttendanceController.ent_employeeId := "E1";
     AttendanceController.ent_entryTime :=
       JsDate.days_from_civil 0 6 15 * JsDate.msPerDay + 12 * Sample.hour;
     AttendanceController.ent_location := Sample.office;
     AttendanceController.ent_method := manual |}.

(** The daily report asked with a start date and no end date. *)
Definition fromNine : AttendanceReportsController.ReportQuery :=
  {| AttendanceReportsController.q_period := AttendanceReportsController.daily;
     AttendanceReportsController.q_startDate := Sample.nine;
     AttendanceReportsController.q_endDate := None |}.

End Scenario.

Import AttendanceController AttendanceMethodsController AttendanceReportsController.
Import AttendanceHistory AttendanceStatistics.

(* ================================================================== *)
(** ** Running a handler *)

Ltac unfold_handler :=
  cbv beta iota zeta delta
    [run bind ret reply throw when sendEmailAndNotify
     Store.getEmployee Store.queryEmployee Store.queryEmployeeRange
     Store.add Store.get Store.update Timestamp.fromDate queryWindow].

(** One case analysis on the guard a handler is stopped at. *)
Ltac case_guard :=
  match goal with
  | |- context [match Store.lookup ?k ?l with _ => _ end] =>
      destruct (Store.lookup k l) eqn:?
  | |- context [match compositeQueryError ?e with _ => _ end] =>
      destruct (compositeQueryError e) eqn:?
  | |- context [match simpleQueryError ?e with _ => _ end] =>
      destruct (simpleQueryError e) eqn:?
  | |- context [if isIndexError ?m then _ else _] =>
      destruct (isIndexError m) eqn:?
  | |- context [if notAuthorized ?u ?i then _ else _] =>
      destruct (notAuthorized u i) eqn:?
  | |- context [match firstOpen ?l with _ => _ end] =>
      destruct (firstOpen l) as [[? ?]|] eqn:?
  | |- context [match entryTime ?a with _ => _ end] =>
      destruct (entryTime a) eqn:?
  | |- context [if qrExpired ?e ?t then _ else _] =>
      destruct (qrExpired e t) eqn:?
  | |- context [if Timestamp.holds ?t then _ else _] =>
      destruct (Timestamp.holds t) eqn:?
  | |- context [if JsNumber.gtb ?a ?b then _ else _] =>
      destruct (JsNumber.gtb a b) eqn:?
  | |- context [if JsNumber.geb ?a ?b then _ else _] =>
      destruct (JsNumber.geb a b) eqn:?
  | |- context [if (?a <=? ?b)%Z then _ else _] =>
      destruct (a <=? b)%Z eqn:?
  | |- context [match scan_qrData ?b with _ => _ end] =>
      destruct (scan_qrData b) eqn:?
  | |- context [if existsb ?f ?l then _ else _] =>
      destruct (existsb f l) eqn:?
  | |- context [if negb ?b then _ else _] =>
      destruct b eqn:?; cbn [negb]
  | |- context [if (?a =? ?b)%string then _ else _] =>
      destruct (a =? b)%string eqn:?
  | |- context [if (?a && ?b)%bool then _ else _] =>
      destruct (a && b)%bool eqn:?
  end.

Ltac unfold_request :=
  cbn [handle]; unfold recordAttendance, recordExit, exitSnapshot, scanQrCode,
    facialAttendance; unfold_handler.

Ltac leaf :=
  cbn [fst snd status message data db attendance employees outbox];
  repeat split; intros; try discriminate; try reflexivity; try assumption.

Lemma run_reply (st : Z) (ok : bool) (msg : string) (d : Data) (w : World) :
  run (reply st ok msg d) w
  = ({| status := st; success := ok; message := msg; data := d |}, w).
Proof. reflexivity. Qed.

Lemma run_bind_next {A} (c : Handler A) (k : A -> Handler Empty_set)
    (w w' : World) (a : A) :
  c w = (Next a, w') -> run (bind c k) w = run (k a) w'.
Proof. intros H. unfold run, bind. rewrite H. reflexivity. Qed.

Lemma run_bind_reply {A} (c : Handler A) (k : A -> Handler Empty_set)
    (w w' : World) (r : Response) :
  c w = (Reply r, w') -> run (bind c k) w = (r, w').
Proof. intros H. unfold run, bind. rewrite H. reflexivity. Qed.


(* ================================================================== *)
(** ** The store *)

Lemma In_insertBy {A} (before : A -> A -> bool) (x y : A) (l : list A) :
  In x (Store.insertBy before y l) <-> x = y \/ In x l.
Proof.
  induction l as [|z l IH]; cbn [Store.insertBy].
  - cbn. intuition congruence.
  - destruct (before z y); cbn [In]; rewrite ?IH; cbn [In]; intuition congruence.
Qed.

(** Sorting keeps the documents. *)
Lemma In_sortBy {A} (before : A -> A -> bool) (x : A) (l : list A) :
  In x (Store.sortBy before l) <-> In x l.
Proof.
  unfold Store.sortBy.
  enough (H : forall acc,
             In x (fold_left (fun acc y => Store.insertBy before y acc) l acc)
             <-> In x l \/ In x acc).
  { rewrite H. cbn. tauto. }
  induction l as [|y l IH]; intros acc; cbn [fold_left In].
  - tauto.
  - rewrite IH, In_insertBy. intuition congruence.
Qed.

Lemma whereEmployee_incl (id : string) (docs : list Doc) :
  incl (Store.whereEmployee id docs) docs.
Proof. intros d H. apply filter_In in H. tauto. Qed.

Lemma whereEntryBetween_incl (from to : Instant) (docs : list Doc) :
  incl (Store.whereEntryBetween from to docs) docs.
Proof. intros d H. apply filter_In in H. tauto. Qed.

Lemma modify_ids (id : DocId) (f : Attendance -> Attendance) (docs : list Doc) :
  map fst (Store.modify id f docs) = map fst docs.
Proof.
  unfold Store.modify. rewrite map_map. apply map_ext.
  intros [i a]. cbn [fst snd]. destruct (Nat.eqb i id); reflexivity.
Qed.

Lemma freshId_above (docs : list Doc) (d : Doc) :
  In d docs -> (fst d < Store.freshId docs)%nat.
Proof.
  unfold Store.freshId.
  induction docs as [|e docs IH]; cbn [In map fold_right]; [tauto|].
  intros [-> | Hin]; [lia | specialize (IH Hin); lia].
Qed.

(** [add] and [update] keep the document ids unique. *)
Lemma fresh_NoDup (docs : list Doc) (a : Attendance) :
  NoDup (map fst docs) -> NoDup (map fst (docs ++ [(Store.freshId docs, a)])).
Proof.
  intros Hnd. rewrite map_app. cbn [map fst].
  apply NoDup_app; [exact Hnd | repeat constructor; intros [] |].
  intros i Hi [<- | []]. apply in_map_iff in Hi. destruct Hi as [d [Hfst Hin]].
  apply freshId_above in Hin. lia.
Qed.

Lemma add_uniqueIds (a : Attendance) (w : World) :
  uniqueIds (db w) -> uniqueIds (db (snd (Store.add a w))).
Proof. unfold uniqueIds, Store.add. cbn [snd db attendance]. apply fresh_NoDup. Qed.

Lemma update_uniqueIds (id : DocId) (f : Attendance -> Attendance) (w : World) :
  uniqueIds (db w) -> uniqueIds (db (snd (Store.update id f w))).
Proof.
  unfold uniqueIds, Store.update. cbn [snd db attendance].
  now rewrite modify_ids.
Qed.

(** Updating the record found under an id changes that record. *)
Lemma find_modify (id : DocId) (f : Attendance -> Attendance) (a : Attendance)
    (docs : list Doc) :
  NoDup (map fst docs) -> In (id, a) docs ->
  Store.find id (Store.modify id f docs) = Some (f a).
Proof.
  induction docs as [|[i b] docs IH]; cbn [map In Store.find Store.modify fst snd].
  - tauto.
  - intros Hnd [Heq | Hin].
    + injection Heq as -> ->. rewrite Nat.eqb_refl. cbn. now rewrite Nat.eqb_refl.
    + inversion Hnd as [|? ? Hnotin Hnd']; subst.
      destruct (Nat.eqb i id) eqn:E.
      * apply Nat.eqb_eq in E. subst i. exfalso. apply Hnotin.
        change id with (fst (id, a)). now apply in_map.
      * cbn. rewrite E. now apply IH.
Qed.

Lemma existsb_open (id : string) (d : Db) :
  existsb (fun doc => negb (isSet (exitTime (snd doc))))
    (Store.whereEmployee id (attendance d)) = true
  <-> openSessions id d <> [].
Proof.
  unfold openSessions.
  induction (Store.whereEmployee id (attendance d)) as [|doc l IH];
    cbn [existsb filter].
  - split; [discriminate | intros H; now elim H].
  - destruct (negb (isSet (exitTime (snd doc)))); cbn [orb].
    + split; [discriminate | reflexivity].
    + exact IH.
Qed.

(** A new open record joins the open sessions of its employee only. *)
Lemma openSessions_add (id id' : string) (docs : list Doc)
    (emps : list (string * Employee)) (i : DocId) (a : Attendance) :
  employeeId a = id -> exitTime a = None ->
  openSessions id' {| employees := emps; attendance := docs ++ [(i, a)] |}
  = (openSessions id' {| employees := emps; attendance := docs |}
     ++ if (id =? id')%string then [(i, a)] else [])%list.
Proof.
  intros Hid Hexit. unfold openSessions, Store.whereEmployee. cbn [attendance].
  rewrite !filter_app. cbn [filter snd]. rewrite Hid.
  destruct (id =? id')%string; cbn [filter snd]; [rewrite Hexit|]; reflexivity.
Qed.

(** Writing an exit opens no session. *)
Lemma openSessions_modify (id : string) (emps : list (string * Employee))
    (rid : DocId) (t : Instant) (c : Coordinates) (u : Instant) (docs : list Doc) :
  (List.length
     (openSessions id
        {| employees := emps;
           attendance := Store.modify rid (withExit t c u) docs |})
   <= List.length (openSessions id {| employees := emps; attendance := docs |}))%nat.
Proof.
  unfold openSessions, Store.whereEmployee. cbn [attendance].
  induction docs as [|[i a] docs IH]; cbn [Store.modify map filter fst snd].
  - lia.
  - fold (Store.modify rid (withExit t c u) docs).
    destruct (Nat.eqb i rid); cbn [fst snd withExit employeeId];
      destruct (employeeId a =? id)%string;
      cbn [filter snd withExit exitTime isSet negb List.length];
      try destruct (exitTime a); cbn [isSet negb List.length]; lia.
Qed.

(* ================================================================== *)
(** ** Manual entry and exit *)

(** The manual entry is refused while the employee has an open session,
    as long as the query that looks for it runs. *)
Lemma recordAttendance_rejects_open_session (cfg : Config) (env : Env)
    (user : User) (body : EntryBody) (w : World) (employee : Employee) :
  Store.lookup (ent_employeeId body) (employees (db w)) = Some employee ->
  notAuthorized user (ent_employeeId body) = false ->
  simpleQueryError env = None ->
  openSessions (ent_employeeId body) (db w) <> [] ->
  run (recordAttendance cfg env user body) w
  = ({| status := 400; success := false;
        message := "You already have an open attendance entry. Please record exit time first before creating a new entry.";
        data := NoData |}, w).
Proof.
  intros Hemp Hauth Hquery Hopen. apply existsb_open in Hopen.
  unfold recordAttendance. unfold_handler.
  rewrite Hemp, Hauth, Hquery, Hopen. reflexivity.
Qed.

(** When that query fails the check is skipped and the entry goes on. *)
Lemma recordAttendance_check_is_best_effort (cfg : Config) (env : Env)
    (user : User) (body : EntryBody) (w : World) (employee : Employee)
    (checkError : string) :
  Store.lookup (ent_employeeId body) (employees (db w)) = Some employee ->
  notAuthorized user (ent_employeeId body) = false ->
  simpleQueryError env = Some checkError ->
  JsNumber.gtb (locationDistance cfg (ent_location body)) (allowedRadius cfg)
  = false ->
  Timestamp.holds (ent_entryTime body) = true ->
  status (fst (run (recordAttendance cfg env user body) w)) = 201.
Proof.
  intros Hemp Hauth Hquery Hin Hheld.
  unfold recordAttendance. unfold_handler.
  rewrite Hemp, Hauth, Hquery, Hin, Hheld.
  now destruct (9 <=? JsDate.getHours (tzOffset cfg) (ent_entryTime body)).
Qed.

(** A manual entry keeps the invariant, as long as its query runs. *)
Lemma recordAttendance_keeps_one_open (cfg : Config) (env : Env) (user : User)
    (body : EntryBody) (w : World) :
  simpleQueryError env = None ->
  atMostOneOpen (db w) ->
  atMostOneOpen (db (snd (run (recordAttendance cfg env user body) w))).
Proof.
  intros Hquery Hinv. unfold recordAttendance. unfold_handler. rewrite Hquery.
  destruct (Store.lookup (ent_employeeId body) (employees (db w))); [|exact Hinv].
  destruct (notAuthorized user (ent_employeeId body)); [exact Hinv|].
  destruct (existsb _ _) eqn:Hopen; [exact Hinv|].
  assert (Hnone : openSessions (ent_employeeId body) (db w) = []).
  { destruct (openSessions (ent_employeeId body) (db w)) eqn:E; [reflexivity|].
    assert (H : openSessions (ent_employeeId body) (db w) <> [])
      by (rewrite E; discriminate).
    apply existsb_open in H. congruence. }
  destruct (JsNumber.gtb _ _); [exact Hinv|].
  assert (Hadded : forall out,
    atMostOneOpen
      (db {| db := {| employees := employees (db w);
                      attendance := attendance (db w)
                        ++ [(Store.freshId (attendance (db w)),
                             {| employeeId := ent_employeeId body;
                                entryTime := Some (ent_entryTime body);
                                exitTime := None;
                                location := ent_location body;
                                exitLocation := None;
                                method := ent_method body;
                                createdAt := now env;
                                updatedAt := None |})] |};
             outbox := out |})).
  { intros out id'. cbn [db].
    rewrite (openSessions_add (ent_employeeId body)) by reflexivity.
    rewrite length_app.
    destruct (ent_employeeId body =? id')%string eqn:E.
    - apply String.eqb_eq in E. subst id'.
      destruct (db w) as [emps docs]. cbn [employees attendance] in *.
      rewrite Hnone. cbn. lia.
    - specialize (Hinv id'). destruct (db w) as [emps docs].
      cbn [employees attendance List.length] in *. lia. }
  destruct (9 <=? _), (Timestamp.holds (ent_entryTime body));
    cbn [snd]; first [apply Hadded | exact Hinv].
Qed.

(** The snapshot [recordExit] searches reads the store without changing
    it, and holds documents of the store only. *)
Lemma exitSnapshot_reads (env : Env) (id : string) (w w' : World)
    (docs : list Doc) :
  exitSnapshot env id w = (Next docs, w') ->
  w' = w /\ incl docs (attendance (db w)).
Proof.
  unfold exitSnapshot. unfold_handler.
  destruct (compositeQueryError env) as [msg|].
  - destruct (isIndexError msg).
    + destruct (simpleQueryError env); intros H; inversion H; subst.
      split; [reflexivity | apply whereEmployee_incl].
    + intros H; inversion H.
  - intros H; inversion H; subst. split; [reflexivity|].
    intros d Hd. apply In_sortBy in Hd.
    apply whereEntryBetween_incl, whereEmployee_incl in Hd. exact Hd.
Qed.

Lemma firstOpen_In (docs : list Doc) (d : Doc) :
  firstOpen docs = Some d -> In d docs /\ exitTime (snd d) = None.
Proof.
  unfold firstOpen. intros H. apply find_some in H. destruct H as [Hin Hopen].
  split; [exact Hin|]. destruct (exitTime (snd d)); [discriminate | reflexivity].
Qed.

Lemma recordExit_unknown_employee (cfg : Config) (env : Env) (user : User)
    (body : ExitBody) (w : World) :
  Store.lookup (ext_employeeId body) (employees (db w)) = None ->
  run (recordExit cfg env user body) w
  = ({| status := 404; success := false; message := "Employee not found";
        data := NoData |}, w).
Proof.
  intros Hemp. unfold recordExit. unfold_handler. now rewrite Hemp.
Qed.

Lemma recordExit_no_open_session (cfg : Config) (env : Env) (user : User)
    (body : ExitBody) (w : World) (employee : Employee) (docs : list Doc) :
  Store.lookup (ext_employeeId body) (employees (db w)) = Some employee ->
  exitSnapshot env (ext_employeeId body) w = (Next docs, w) ->
  firstOpen (Store.byEntryDesc docs) = None ->
  run (recordExit cfg env user body) w
  = ({| status := 400; success := false;
        message := "No entry attendance found for today. Please record entry first.";
        data := NoData |}, w).
Proof.
  intros Hemp Hsnap Hnone. unfold recordExit.
  rewrite (run_bind_next _ _ w w (Some employee))
    by (unfold Store.getEmployee; now rewrite Hemp).
  rewrite (run_bind_next _ _ w w docs) by exact Hsnap.
  cbv zeta. now rewrite Hnone.
Qed.

(** C7. For every recordExit call that locates an open record (exitTime
    unset) for the employee: an exit instant that is not after the
    record's entryTime is refused with "Exit time must be after entry
    time" and nothing changes; a later exit instant writes exitTime and
    exitLocation into the located record, which is what the store then
    holds under its id and what the response returns. *)
Theorem recordExit_chronology (cfg : Config) (env : Env) (user : User)
    (body : ExitBody) (w : World) (employee : Employee) (docs : list Doc)
    (rid : DocId) (rec : Attendance) (entered : Instant) :
  uniqueIds (db w) ->
  Store.lookup (ext_employeeId body) (employees (db w)) = Some employee ->
  exitSnapshot env (ext_employeeId body) w = (Next docs, w) ->
  firstOpen (Store.byEntryDesc docs) = Some (rid, rec) ->
  entryTime rec = Some entered ->
  let result := run (recordExit cfg env user body) w in
  let updated := withExit (ext_exitTime body) (ext_location body) (now env) rec in
  (ext_exitTime body <= entered ->
   result = ({| status := 400; success := false;
                message := "Exit time must be after entry time";
                data := NoData |}, w))
  /\ (entered < ext_exitTime body ->
      fst result = {| status := 200; success := true;
                      message := "Exit time recorded successfully";
                      data := AttendanceData rid (Some updated) |}
      /\ exitTime updated = Some (ext_exitTime body)
      /\ exitLocation updated = Some (ext_location body)
      /\ Store.find rid (attendance (db (snd result))) = Some updated
      /\ attendance (db (snd result))
         = Store.modify rid
             (withExit (ext_exitTime body) (ext_location body) (now env))
             (attendance (db w))).
Proof.
  intros Hids Hemp Hsnap Hopen Hentry result updated.
  assert (Hin : In (rid, rec) (attendance (db w))).
  { apply firstOpen_In in Hopen. destruct Hopen as [Hin _].
    apply In_sortBy in Hin. now apply (exitSnapshot_reads _ _ _ _ _ Hsnap). }
  assert (Hfind : Store.find rid
                    (Store.modify rid
                       (withExit (ext_exitTime body) (ext_location body) (now env))
                       (attendance (db w))) = Some updated).
  { now apply find_modify. }
  subst result. unfold recordExit.
  rewrite (run_bind_next _ _ w w (Some employee))
    by (unfold Store.getEmployee; now rewrite Hemp).
  rewrite (run_bind_next _ _ w w docs) by exact Hsnap.
  cbv zeta. rewrite Hopen, Hentry.
  split.
  - intros Hle. apply Z.leb_le in Hle.
    unfold_handler. rewrite Hle. reflexivity.
  - intros Hlt. apply Z.leb_gt in Hlt.
    unfold_handler. rewrite Hlt. cbn [fst snd db attendance].
    rewrite Hfind. repeat split; reflexivity.
Qed.

(** Amal entered at nine: leaving at nine is refused, leaving at five in
    the afternoon closes the session. *)
Lemma recordExit_chronology_witness :
  let early :=
    run (recordExit defaultConfig Sample.clock Sample.asAmal
           (Sample.exitAt Sample.nine)) Sample.entered in
  let late :=
    run (recordExit defaultConfig Sample.clock Sample.asAmal
           (Sample.exitAt (Sample.nine + 8 * Sample.hour))) Sample.entered in
  (status (fst early) = 400 /\ snd early = Sample.entered)
  /\ (status (fst late) = 200
      /\ map (fun doc => exitTime (snd doc)) (attendance (db (snd late)))
         = [Some (Sample.nine + 8 * Sample.hour)]).
Proof.
  assert (Hids : uniqueIds (db Sample.entered)).
  { repeat constructor. intros []. }
  split.
  - destruct (recordExit_chronology defaultConfig Sample.clock Sample.asAmal
                (Sample.exitAt Sample.nine) Sample.entered Sample.amal
                [(1%nat, Sample.entryAt Sample.nine manual)] 1%nat
                (Sample.entryAt Sample.nine manual) Sample.nine
                Hids eq_refl eq_refl eq_refl eq_refl) as [Hearly _].
    rewrite Hearly by (vm_compute; discriminate). split; reflexivity.
  - destruct (recordExit_chronology defaultConfig Sample.clock Sample.asAmal
                (Sample.exitAt (Sample.nine + 8 * Sample.hour)) Sample.entered
                Sample.amal [(1%nat, Sample.entryAt Sample.nine manual)] 1%nat
                (Sample.entryAt Sample.nine manual) Sample.nine
                Hids eq_refl eq_refl eq_refl eq_refl) as [_ Hlate].
    destruct Hlate as [Hresp [_ [_ [_ Hstore]]]]; [vm_compute; reflexivity|].
    rewrite Hresp, Hstore. split; reflexivity.
Defined.

(** C9. For every recordExit call that does not succeed (any status
    other than 200: the employee is unknown, no open record is found,
    the exit instant is not after the entry, or a query fails), the
    store and the outbox are left exactly as they were: the update is
    issued only after all checks pass. *)
Theorem recordExit_failure_leaves_store (cfg : Config) (env : Env) (user : User)
    (body : ExitBody) (w : World) :
  status (fst (run (recordExit cfg env user body) w)) <> 200 ->
  snd (run (recordExit cfg env user body) w) = w.
Proof.
  unfold recordExit, exitSnapshot. unfold_handler.
  repeat case_guard; cbn [fst snd status]; intros H; try reflexivity.
  all: exfalso; apply H; reflexivity.
Qed.

(** An exit for an employee the directory does not know. *)
Lemma recordExit_failure_leaves_store_witness :
  let call :=
    recordExit defaultConfig Sample.clock Sample.asOther
      {| ext_employeeId := "E2"; ext_exitTime := Sample.nine;
         ext_location := Sample.office |} in
  status (fst (run call Sample.entered)) = 404
  /\ db (snd (run call Sample.entered)) = db Sample.entered.
Proof.
  split; [reflexivity |].
  rewrite (recordExit_failure_leaves_store defaultConfig Sample.clock
             Sample.asOther
             {| ext_employeeId := "E2"; ext_exitTime := Sample.nine;
                ext_location := Sample.office |} Sample.entered).
  - reflexivity.
  - vm_compute. discriminate.
Defined.

Lemma recordExit_keeps_one_open (cfg : Config) (env : Env) (user : User)
    (body : ExitBody) (w : World) :
  atMostOneOpen (db w) ->
  atMostOneOpen (db (snd (run (recordExit cfg env user body) w))).
Proof.
  intros Hinv. unfold recordExit, exitSnapshot. unfold_handler.
  repeat case_guard; cbn [snd]; try exact Hinv.
  all: intros id'; cbn [db]; specialize (Hinv id');
    destruct (db w) as [emps docs]; cbn [employees attendance] in *;
    eapply Nat.le_trans; [apply openSessions_modify | exact Hinv].
Qed.

(** Served one after the other, manual entries and exits whose
    open-session query runs never leave an employee with two open
    sessions. *)
Lemma manual_requests_keep_one_open (cfg : Config)
    (requests : list (Env * Request)) (w : World) :
  Forall (fun er => simpleQueryError (fst er) = None /\ isManual (snd er) = true)
    requests ->
  atMostOneOpen (db w) ->
  atMostOneOpen (db (serve cfg requests w)).
Proof.
  revert w. induction requests as [|[env r] requests IH]; intros w Hall Hinv.
  - exact Hinv.
  - inversion Hall as [|? ? [Hquery Hmanual] Hrest]; subst. cbn [fst snd] in *.
    cbn [serve]. apply IH; [exact Hrest|].
    destruct r; try discriminate; cbn [handle].
    + now apply recordAttendance_keeps_one_open.
    + now apply recordExit_keeps_one_open.
Qed.

(** Every request keeps the document ids unique. *)
Lemma handle_keeps_uniqueIds (cfg : Config) (env : Env) (r : Request) (w : World) :
  uniqueIds (db w) -> uniqueIds (db (snd (run (handle cfg env r) w))).
Proof.
  intros Hids. unfold uniqueIds in *.
  destruct r; cbn [handle];
    unfold recordAttendance, recordExit, exitSnapshot, scanQrCode,
      facialAttendance;
    unfold_handler; repeat case_guard; cbn [snd db attendance];
    try exact Hids; try (apply fresh_NoDup; exact Hids);
    try (rewrite modify_ids; exact Hids).
Qed.

Lemma serve_keeps_uniqueIds (cfg : Config) (requests : list (Env * Request))
    (w : World) :
  uniqueIds (db w) -> uniqueIds (db (serve cfg requests w)).
Proof.
  revert w. induction requests as [|[env r] requests IH]; intros w Hids.
  - exact Hids.
  - cbn [serve]. apply IH. now apply handle_keeps_uniqueIds.
Qed.

(* ================================================================== *)
(** ** Entries by QR code and by face *)

(** C1. An entry must be refused while the employee has an open session,
    so that no employee ever has two.  Only the manual path looks for
    one.  Amal has one open session: her manual entry is refused and
    changes nothing, but a scan of a fresh QR code and a recognised face
    are both recorded (201), each leaving her with two open sessions;
    and two scans in a row open two sessions in an empty store. *)
Theorem open_session_checked_on_manual_entry_only :
  let w := Sample.entered in
  let byHand :=
    run (recordAttendance defaultConfig Sample.clock Sample.asAmal
           Sample.manualEntry) w in
  let byScan :=
    run (scanQrCode defaultConfig Sample.clock Sample.asAmal
           (Sample.scan Sample.minute None)) w in
  let byFace :=
    run (facialAttendance defaultConfig Sample.clock Sample.asAmal
           (Sample.face 0)) w in
  let scannedTwice :=
    serve defaultConfig
      [(Sample.clock, QrScan Sample.asAmal (Sample.scan Sample.minute None));
       (Sample.clock, QrScan Sample.asAmal (Sample.scan Sample.minute None))]
      Sample.empty in
  atMostOneOpen (db w)
  /\ (status (fst byHand) = 400 /\ snd byHand = w)
  /\ (status (fst byScan) = 201
      /\ map fst (openSessions "E1" (db (snd byScan))) = [1%nat; 2%nat])
  /\ (status (fst byFace) = 201
      /\ map fst (openSessions "E1" (db (snd byFace))) = [1%nat; 2%nat])
  /\ ~ atMostOneOpen (db scannedTwice).
Proof.
  cbv zeta. split; [|split; [|split; [|split]]].
  - intros id. unfold openSessions, Store.whereEmployee.
    cbn [Sample.entered db attendance filter snd Sample.entryAt employeeId].
    destruct ("E1" =? id)%string; cbn; lia.
  - vm_compute. split; reflexivity.
  - vm_compute. split; reflexivity.
  - vm_compute. split; reflexivity.
  - intros Hinv. specialize (Hinv "E1"). vm_compute in Hinv. lia.
Qed.

(** C6. For every scan whose payload decodes to an object with a numeric
    timestamp: up to five minutes after the timestamp the scan is never
    answered with the expired-code response (401); later than that no
    scan is accepted and the store is unchanged, and the answer is the
    expired-code response as soon as the payload names an employee of
    the directory for whom the caller may act (the checks that run
    before the freshness check). *)
Theorem scanQrCode_freshness (cfg : Config) (env : Env) (user : User)
    (body : ScanBody) (w : World) (payload : QrPayload) (issuedAt : Instant) :
  scan_qrData body = JsonObject payload ->
  timestamp payload = Some issuedAt ->
  let result := run (scanQrCode cfg env user body) w in
  (now env - issuedAt <= 5 * 60 * 1000 ->
   status (fst result) <> 401
   /\ message (fst result) <> "Invalid or expired QR code")
  /\ (5 * 60 * 1000 < now env - issuedAt ->
      status (fst result) <> 201
      /\ db (snd result) = db w
      /\ forall id employee,
           qr_employeeId payload = Some id -> id <> "" ->
           notAuthorized user id = false ->
           Store.lookup id (employees (db w)) = Some employee ->
           fst result = {| status := 401; success := false;
                           message := "Invalid or expired QR code";
                           data := NoData |}).
Proof.
  intros Hdata Hts result. subst result.
  unfold scanQrCode. rewrite Hdata, Hts. unfold qrExpired.
  split.
  - intros Hfresh.
    replace (5 * 60 * 1000 <? now env - issuedAt) with false
      by (symmetry; apply Z.ltb_ge; lia).
    unfold_handler.
    repeat case_guard; cbn [fst snd status message]; split; discriminate.
  - intros Hstale.
    replace (5 * 60 * 1000 <? now env - issuedAt) with true
      by (symmetry; apply Z.ltb_lt; lia).
    unfold_handler.
    split; [|split].
    + repeat case_guard; cbn [fst snd status]; discriminate.
    + repeat case_guard; reflexivity.
    + intros id employee Hid Hne Hauth Hemp. rewrite Hid.
      unfold isValidFirebaseId.
      apply String.eqb_neq in Hne. rewrite Hne. cbn [negb].
      rewrite Hauth, Hemp. reflexivity.
Qed.

(** A code issued this instant is accepted; one issued six minutes ago is
    answered 401 and records nothing. *)
Lemma scanQrCode_freshness_witness :
  let fresh :=
    run (scanQrCode defaultConfig Sample.clock Sample.asAmal
           (Sample.scan 0 None)) Sample.empty in
  let stale :=
    run (scanQrCode defaultConfig Sample.clock Sample.asAmal
           (Sample.scan (6 * Sample.minute) None)) Sample.empty in
  status (fst fresh) = 201
  /\ status (fst fresh) <> 401
  /\ db (snd stale) = db Sample.empty
  /\ fst stale = {| status := 401; success := false;
                    message := "Invalid or expired QR code"; data := NoData |}.
Proof.
  split; [reflexivity |].
  split.
  - apply (scanQrCode_freshness defaultConfig Sample.clock Sample.asAmal
             (Sample.scan 0 None) Sample.empty _ _ eq_refl eq_refl).
    vm_compute. discriminate.
  - destruct (scanQrCode_freshness defaultConfig Sample.clock Sample.asAmal
                (Sample.scan (6 * Sample.minute) None) Sample.empty _ _
                eq_refl eq_refl) as [_ Hstale].
    destruct Hstale as [_ [Hdb Hresp]]; [vm_compute; reflexivity |].
    split; [exact Hdb |].
    apply (Hresp "E1" Sample.amal); [reflexivity | discriminate | reflexivity
                                    | reflexivity].
Defined.

(** C10. Two scans whose payloads agree on employeeId and timestamp, and
    differ at most in expiresAt, get the same response and leave the same
    store: expiresAt is never read.  So a payload whose expiresAt is
    already past is accepted (201, one more record) when its timestamp is
    at most five minutes old and the other checks pass: the payload
    names an employee of the directory for whom the caller may act, the
    scan is made inside the allowed area, and its entryTime is an instant
    a Firestore Timestamp holds. *)
Theorem scanQrCode_ignores_expiresAt (cfg : Config) (env : Env) (user : User)
    (body1 body2 : ScanBody) (p1 p2 : QrPayload) (w : World) :
  scan_qrData body1 = JsonObject p1 ->
  scan_qrData body2 = JsonObject p2 ->
  qr_employeeId p1 = qr_employeeId p2 ->
  timestamp p1 = timestamp p2 ->
  scan_location body1 = scan_location body2 ->
  scan_entryTime body1 = scan_entryTime body2 ->
  run (scanQrCode cfg env user body1) w = run (scanQrCode cfg env user body2) w
  /\ (forall id issuedAt expired employee,
        qr_employeeId p1 = Some id -> id <> "" ->
        timestamp p1 = Some issuedAt ->
        expiresAt p1 = Some expired -> expired < now env ->
        now env - issuedAt <= 5 * 60 * 1000 ->
        notAuthorized user id = false ->
        Store.lookup id (employees (db w)) = Some employee ->
        JsNumber.gtb (locationDistance cfg (scan_location body1))
          (allowedRadius cfg) = false ->
        Timestamp.holds (scan_entryTime body1) = true ->
        status (fst (run (scanQrCode cfg env user body1) w)) = 201
        /\ List.length
             (attendance (db (snd (run (scanQrCode cfg env user body1) w))))
           = S (List.length (attendance (db w)))).
Proof.
  intros Hd1 Hd2 Hid Hts Hloc Htime. split.
  - unfold scanQrCode. rewrite Hd1, Hd2, Hid, Hts, Hloc, Htime. reflexivity.
  - intros id issuedAt expired employee Hsome Hne Hissued _ _ Hfresh Hauth Hemp Hin
      Hheld.
    unfold scanQrCode. rewrite Hd1, Hsome, Hissued.
    unfold qrExpired, isValidFirebaseId.
    apply String.eqb_neq in Hne. rewrite Hne. cbn [negb].
    replace (5 * 60 * 1000 <? now env - issuedAt) with false
      by (symmetry; apply Z.ltb_ge; lia).
    unfold_handler. rewrite Hauth, Hemp, Hin, Hheld.
    destruct (9 <=? JsDate.getHours (tzOffset cfg) (scan_entryTime body1));
      cbn [fst snd status db attendance]; rewrite length_app;
      cbn [List.length]; split; [reflexivity | lia | reflexivity | lia].
Qed.

(** A code issued a minute ago whose expiresAt is the epoch, against the
    same code with expiresAt twelve hours ahead. *)
Lemma scanQrCode_ignores_expiresAt_witness :
  let past := Sample.scan Sample.minute (Some 0) in
  let ahead := Sample.scan Sample.minute (Some (Sample.nine + 12 * Sample.hour)) in
  run (scanQrCode defaultConfig Sample.clock Sample.asAmal past) Sample.empty
  = run (scanQrCode defaultConfig Sample.clock Sample.asAmal ahead) Sample.empty
  /\ status (fst (run (scanQrCode defaultConfig Sample.clock Sample.asAmal past)
                    Sample.empty)) = 201.
Proof.
  destruct (scanQrCode_ignores_expiresAt defaultConfig Sample.clock Sample.asAmal
              (Sample.scan Sample.minute (Some 0))
              (Sample.scan Sample.minute (Some (Sample.nine + 12 * Sample.hour)))
              _ _ Sample.empty eq_refl eq_refl eq_refl eq_refl eq_refl eq_refl)
    as [Hsame Haccepted].
  split; [exact Hsame |].
  apply (Haccepted "E1" (Sample.nine - Sample.minute) 0 Sample.amal);
    try reflexivity; try discriminate.
Defined.

(** The code [generateQrCode] issues says it expires in twelve hours;
    scanned six minutes after it was issued it is refused all the same. *)
Lemma generated_code_lives_five_minutes :
  let issued :=
    run (generateQrCode Sample.clock Sample.asAmal "E1") Sample.empty in
  let later :=
    {| now := Sample.nine + 6 * Sample.minute;
       compositeQueryError := None; simpleQueryError := None |} in
  exists payload,
    data (fst issued) = QrCodeData payload
    /\ timestamp payload = Some Sample.nine
    /\ expiresAt payload = Some (Sample.nine + 12 * Sample.hour)
    /\ status (fst (run (scanQrCode defaultConfig later Sample.asAmal
                          {| scan_qrData := JsonObject payload;
                             scan_location := Sample.office;
                             scan_entryTime := now later |}) Sample.empty))
       = 401.
Proof.
  exists {| qr_employeeId := Some "E1"; timestamp := Some Sample.nine;
            expiresAt := Some (Sample.nine + 12 * Sample.hour) |}.
  vm_compute. repeat split; reflexivity.
Qed.

(* ------------------------------------------------------------------ *)
(** *** Face descriptors *)

Lemma sub_self (x : float) : (x - x = 0 \/ x - x = nan)%float.
Proof.
  assert (H : Prim2SF (x - x) = S754_zero false \/ Prim2SF (x - x) = S754_nan).
  { rewrite FloatAxioms.sub_spec. unfold SF64sub, SFsub.
    destruct (Prim2SF x) as [s | s | | s m e].
    - left. now destruct s.
    - right. now destruct s.
    - now right.
    - left. now rewrite Z.sub_diag. }
  destruct H as [H | H]; [left | right]; apply Prim2SF_inj; rewrite H; reflexivity.
Qed.

Lemma sum_of_squares_self (d : list float) (acc : float) :
  acc = 0%float \/ acc = nan ->
  let total :=
    fold_left (fun sum vals => (sum + JsNumber.pow2 (fst vals - snd vals))%float)
      (combine d d) acc in
  total = 0%float \/ total = nan.
Proof.
  revert acc. induction d as [|x d IH]; intros acc Hacc; cbn [combine fold_left].
  - exact Hacc.
  - apply IH. cbn [fst snd].
    destruct Hacc as [-> | ->], (sub_self x) as [-> | ->];
      [left | right | right | right]; reflexivity.
Qed.

(** A descriptor compared with itself is at distance 0, or NaN when one
    of its coordinates is not finite; neither reaches the threshold. *)
Lemma calculateDistance_self (d : list float) :
  JsNumber.geb (calculateDistance (Some d) (Some d)) 0.6 = false.
Proof.
  unfold calculateDistance. rewrite Nat.eqb_refl. cbn [negb].
  destruct (sum_of_squares_self d 0%float (or_introl eq_refl)) as [H | H];
    cbv zeta in H; rewrite H; reflexivity.
Qed.

(** C4, as stated, fails: the figure is not clamped at zero.  A face at
    distance 1.5 from the stored descriptor is answered with a confidence
    of -50.0%. *)
Lemma confidence_negative_beyond_distance_one :
  let distance :=
    calculateDistance (Some (Sample.template 1.5)) (Some (Sample.template 0)) in
  let result :=
    run (facialAttendance defaultConfig Sample.clock Sample.asAmal
           (Sample.face 1.5)) Sample.empty in
  distance = 1.5%float
  /\ (100 - distance * 100 <? 0)%float = true
  /\ message (fst result)
     = "Face not recognized (confidence: -50.0%). Please ensure good lighting, face the camera directly, and hold still. If this persists, re-register your face in Profile.".
Proof. vm_compute. repeat split; reflexivity. Qed.

(** C4, amended.  A confidence figure is reported exactly when the
    comparison rejects the face (computed distance >= 0.6), in the
    message of the 400 response: it is 100 - 100 * distance as
    toFixed(1) prints it, with no lower bound: with one decimal, and in
    the exponent notation of String(x) once its magnitude reaches 1e21.
    When the comparison accepts the face, no response carries a
    confidence figure. *)
Theorem facialAttendance_reports_confidence (cfg : Config) (env : Env)
    (user : User) (body : FacialBody) (w : World) (employee : Employee)
    (stored : list float) :
  user_id user <> "" ->
  Store.lookup (fac_employeeId body) (employees (db w)) = Some employee ->
  faceDescriptor employee = Some stored ->
  let distance := calculateDistance (Some (fac_faceTemplate body)) (Some stored) in
  let result := run (facialAttendance cfg env user body) w in
  (JsNumber.geb distance 0.6 = true ->
   result
   = ({| status := 400; success := false;
         message :=
           "Face not recognized (confidence: "
           ++ JsNumber.toFixed1 (100 - distance * 100)
           ++ "%). Please ensure good lighting, face the camera directly, and hold still. If this persists, re-register your face in Profile.";
         data := NoData |}, w))
  /\ (JsNumber.geb distance 0.6 = false ->
      forall figure rest : string,
        message (fst result)
        <> ("Face not recognized (confidence: " ++ figure ++ rest)%string).
Proof.
  intros Huser Hemp Hstored distance result. subst result.
  apply String.eqb_neq in Huser.
  unfold facialAttendance. unfold_handler.
  rewrite Huser, Hemp, Hstored. cbn [isSet negb].
  fold distance. split; intros ->.
  - reflexivity.
  - intros figure rest.
    repeat case_guard; cbn [fst message]; discriminate.
Qed.

(** At distance 0.65 the confidence reported is 35.0%; at distance 1e19
    it is -1e+21%. *)
Lemma facialAttendance_reports_confidence_witness :
  calculateDistance (Some (Sample.template 0.65)) (Some (Sample.template 0))
  = 0.65%float
  /\ run (facialAttendance defaultConfig Sample.clock Sample.asAmal
            (Sample.face 0.65)) Sample.empty
     = ({| status := 400; success := false;
           message := "Face not recognized (confidence: 35.0%). Please ensure good lighting, face the camera directly, and hold still. If this persists, re-register your face in Profile.";
           data := NoData |}, Sample.empty)
  /\ calculateDistance (Some (Sample.template 1e19)) (Some (Sample.template 0))
     = 1e19%float
  /\ run (facialAttendance defaultConfig Sample.clock Sample.asAmal
            (Sample.face 1e19)) Sample.empty
     = ({| status := 400; success := false;
           message := "Face not recognized (confidence: -1e+21%). Please ensure good lighting, face the camera directly, and hold still. If this persists, re-register your face in Profile.";
           data := NoData |}, Sample.empty).
Proof.
  split; [vm_compute; reflexivity |].
  split; [|split; [vm_compute; reflexivity |]].
  - destruct (facialAttendance_reports_confidence defaultConfig Sample.clock
                Sample.asAmal (Sample.face 0.65) Sample.empty Sample.amal
                (Sample.template 0)) as [Hrejected _];
      [discriminate | reflexivity | reflexivity |].
    rewrite Hrejected by (vm_compute; reflexivity).
    vm_compute; reflexivity.
  - destruct (facialAttendance_reports_confidence defaultConfig Sample.clock
                Sample.asAmal (Sample.face 1e19) Sample.empty Sample.amal
                (Sample.template 0)) as [Hrejected _];
      [discriminate | reflexivity | reflexivity |].
    rewrite Hrejected by (vm_compute; reflexivity).
    vm_compute; reflexivity.
Defined.

(** C5, as stated, fails: the comparison is made on the distance that
    [calculateDistance] computes in binary64 arithmetic.  The face below
    is at a Euclidean distance of 0.6 or more from Amal's descriptor (the
    exact sum of the squares is at least 0.36), its computed distance is
    0.5999999999999998, and it is recorded. *)
Lemma face_beyond_threshold_is_recorded :
  let body :=
    {| fac_employeeId := "E1"; fac_faceTemplate := Scenario.nearThreshold;
       fac_entryTime := Sample.nine; fac_location := Sample.office |} in
  let result :=
    run (facialAttendance defaultConfig Sample.clock Sample.asAmal body)
      Sample.empty in
  List.length Scenario.nearThreshold = 128%nat
  /\ (9 # 25 <= euclideanSquared Scenario.nearThreshold (Sample.template 0))%Q
  /\ calculateDistance (Some Scenario.nearThreshold) (Some (Sample.template 0))
     = 0.5999999999999998%float
  /\ status (fst result) = 201
  /\ List.length (attendance (db (snd result))) = 1%nat.
Proof.
  cbv zeta. split; [reflexivity|]. split; [vm_compute; discriminate|].
  vm_compute. repeat split; reflexivity.
Qed.

(** C5, amended.  For every facial attempt against a stored descriptor: a
    template identical to the stored descriptor is never answered "Face
    not recognized", and is recorded (201) when the caller may act for
    the employee, stands inside the allowed area and gives an entryTime
    that a Firestore Timestamp holds; whenever the distance computed by
    calculateDistance is >= 0.6 the attempt is answered 400 "Face not
    recognized", with the confidence the code prints, and the store and
    the outbox are unchanged. *)
Theorem facialAttendance_threshold (cfg : Config) (env : Env) (user : User)
    (body : FacialBody) (w : World) (employee : Employee) (stored : list float) :
  user_id user <> "" ->
  Store.lookup (fac_employeeId body) (employees (db w)) = Some employee ->
  faceDescriptor employee = Some stored ->
  let result := run (facialAttendance cfg env user body) w in
  (fac_faceTemplate body = stored ->
   (forall distance, message (fst result) <> notRecognized distance)
   /\ (notAuthorized user (fac_employeeId body) = false ->
       JsNumber.gtb (locationDistance cfg (fac_location body))
         (allowedRadius cfg) = false ->
       Timestamp.holds (fac_entryTime body) = true ->
       status (fst result) = 201
       /\ List.length (attendance (db (snd result)))
          = S (List.length (attendance (db w)))))
  /\ (JsNumber.geb
        (calculateDistance (Some (fac_faceTemplate body)) (Some stored)) 0.6
      = true ->
      status (fst result) = 400
      /\ message (fst result)
         = notRecognized
             (calculateDistance (Some (fac_faceTemplate body)) (Some stored))
      /\ snd result = w).
Proof.
  intros Huser Hemp Hstored result. subst result.
  apply String.eqb_neq in Huser.
  unfold facialAttendance. unfold_handler.
  rewrite Huser, Hemp, Hstored. cbn [isSet negb].
  split.
  - intros ->. rewrite calculateDistance_self.
    fold (notAuthorized user (fac_employeeId body)).
    split.
    + intros distance. unfold notRecognized.
      repeat case_guard; cbn [fst message]; discriminate.
    + intros -> -> ->.
      destruct (9 <=? JsDate.getHours (tzOffset cfg) (fac_entryTime body));
        cbn [fst snd status db attendance]; rewrite length_app;
        cbn [List.length]; split; [reflexivity | lia | reflexivity | lia].
  - intros ->. cbn [fst snd status message]. repeat split; reflexivity.
Qed.

(** Amal's own descriptor is accepted; a face at distance 0.6 is not. *)
Lemma facialAttendance_threshold_witness :
  let same :=
    run (facialAttendance defaultConfig Sample.clock Sample.asAmal
           (Sample.face 0)) Sample.empty in
  let far :=
    run (facialAttendance defaultConfig Sample.clock Sample.asAmal
           (Sample.face 0.6)) Sample.empty in
  status (fst same) = 201
  /\ (status (fst far) = 400 /\ snd far = Sample.empty).
Proof.
  split.
  - destruct (facialAttendance_threshold defaultConfig Sample.clock Sample.asAmal
                (Sample.face 0) Sample.empty Sample.amal (Sample.template 0))
      as [Hsame _]; [discriminate | reflexivity | reflexivity |].
    destruct (Hsame eq_refl) as [_ Hrecorded].
    apply Hrecorded; vm_compute; reflexivity.
  - destruct (facialAttendance_threshold defaultConfig Sample.clock Sample.asAmal
                (Sample.face 0.6) Sample.empty Sample.amal (Sample.template 0))
      as [_ Hfar]; [discriminate | reflexivity | reflexivity |].
    destruct Hfar as [Hstatus [_ Hworld]]; [vm_compute; reflexivity |].
    split; assumption.
Defined.

(* ================================================================== *)
(** ** Presence reports *)

Lemma aggregate_app (tz : Z) (report : Report) (l1 l2 : list Attendance) :
  aggregate tz report (l1 ++ l2) = aggregate tz (aggregate tz report l1) l2.
Proof. unfold aggregate. apply fold_left_app. Qed.

(** [totalDays] counts the records that have an [entryTime]. *)
Lemma totalDays_aggregate (tz : Z) (records : list Attendance) (report : Report) :
  totalDays (aggregate tz report records)
  = totalDays report + Z.of_nat (List.length (filter hasEntry records)).
Proof.
  revert report. induction records as [|r records IH]; intros report.
  - cbn. lia.
  - cbn [aggregate fold_left filter].
    fold (aggregate tz (accumulate tz report r) records).
    rewrite IH. unfold accumulate, hasEntry.
    destruct (entryTime r); cbn [isSet].
    + destruct (exitTime r); cbn [totalDays tally List.length]; lia.
    + lia.
Qed.

(** One turn of the [forEach]: what a record adds to the report counted
    so far. *)
Lemma accumulate_adds (tz : Z) (counted : Report) (record : Attendance) :
  (entryTime record = None -> accumulate tz counted record = counted)
  /\ (forall entered,
        entryTime record = Some entered ->
        totalDays (accumulate tz counted record) = totalDays counted + 1
        /\ (exitTime record = None ->
            totalHours (accumulate tz counted record) = totalHours counted)
        /\ (forall left,
              exitTime record = Some left ->
              totalHours (accumulate tz counted record)
              = (totalHours counted
                 + JsNumber.float_of_Z (left - entered) / 3600000)%float)).
Proof.
  unfold accumulate. split.
  - now intros ->.
  - intros entered ->. split; [now destruct (exitTime record)|].
    split; [now intros -> | now intros left ->].
Qed.

Lemma firstn_next {A} (l : list A) (i : nat) (x : A) :
  nth_error l i = Some x -> firstn (S i) l = (firstn i l ++ [x])%list.
Proof.
  revert i. induction l as [|y l IH]; intros [|i]; cbn [nth_error];
    try discriminate.
  - now intros [= ->].
  - intros H. cbn [firstn app] in *. now rewrite (IH i H).
Qed.

(** C8. For every report getPresenceReport answers with: it is computed
    from the records the query returned (the records of the employee,
    those with entryTime in the window, in the order of entryTime, when
    the request sets a window), counted one after the other from zero
    days and zero hours.  A record without entryTime changes nothing; a
    record with entryTime and no exitTime adds 1 to totalDays and leaves
    totalHours as it is; a record with both adds 1 to totalDays and
    (exitTime - entryTime) / 3600000 to totalHours.  So totalDays is the
    number of the records that have an entryTime. *)
Theorem report_contribution (cfg : Config) (env : Env) (user : User)
    (id : string) (q : ReportQuery) (w : World) :
  let result := run (getPresenceReport cfg env user id q) w in
  let records :=
    map snd
      match window cfg q with
      | Some (start, end_) =>
          Store.byEntryAsc
            (Store.whereEntryBetween start end_
               (Store.whereEmployee id (attendance (db w))))
      | None => Store.whereEmployee id (attendance (db w))
      end in
  status (fst result) = 200 ->
  exists initial,
    let after n := aggregate (tzOffset cfg) initial (firstn n records) in
    totalDays initial = 0
    /\ totalHours initial = 0%float
    /\ data (fst result) = ReportData (after (List.length records))
    /\ totalDays (after (List.length records))
       = Z.of_nat (List.length (filter hasEntry records))
    /\ forall i record,
         nth_error records i = Some record ->
         (entryTime record = None -> after (S i) = after i)
         /\ (forall entered,
               entryTime record = Some entered ->
               totalDays (after (S i)) = totalDays (after i) + 1
               /\ (exitTime record = None ->
                   totalHours (after (S i)) = totalHours (after i))
               /\ (forall left,
                     exitTime record = Some left ->
                     totalHours (after (S i))
                     = (totalHours (after i)
                        + JsNumber.float_of_Z (left - entered) / 3600000)%float)).
Proof.
  cbv zeta. intros Hok.
  assert (Hreport :
    exists initial,
      totalDays initial = 0 /\ totalHours initial = 0%float
      /\ data (fst (run (getPresenceReport cfg env user id q) w))
         = ReportData
             (aggregate (tzOffset cfg) initial
                (map snd
                   match window cfg q with
                   | Some (start, end_) =>
                       Store.byEntryAsc
                         (Store.whereEntryBetween start end_
                            (Store.whereEmployee id (attendance (db w))))
                   | None => Store.whereEmployee id (attendance (db w))
                   end))).
  { revert Hok. unfold getPresenceReport. unfold_handler.
    destruct (Store.lookup id (employees (db w))); [|discriminate].
    destruct (window cfg q) as [[start end_]|];
      repeat case_guard; cbn [fst status data]; try discriminate; intros _;
      eexists; (split; [|split; [|reflexivity]]); reflexivity. }
  destruct Hreport as [initial [Hdays [Hhours Hdata]]].
  exists initial. rewrite firstn_all.
  split; [exact Hdays | split; [exact Hhours | split; [exact Hdata|]]].
  split; [rewrite totalDays_aggregate, Hdays; reflexivity|].
  intros i record Hrecord.
  rewrite (firstn_next _ _ _ Hrecord), aggregate_app.
  cbn [aggregate fold_left].
  apply accumulate_adds.
Qed.

(** A session of eight hours, then an open one: two days, eight hours. *)
Lemma report_contribution_witness :
  let result :=
    run (getPresenceReport defaultConfig Sample.clock Sample.asAmal "E1"
           Scenario.fromNine) Scenario.closedThenOpen in
  exists report,
    data (fst result) = ReportData report
    /\ totalDays report = 2
    /\ totalHours report = 8%float.
Proof.
  cbv zeta.
  destruct (report_contribution defaultConfig Sample.clock Sample.asAmal "E1"
              Scenario.fromNine Scenario.closedThenOpen eq_refl)
    as [initial [Hdays [Hhours [Hdata [Hcount Hstep]]]]].
  eexists. split; [exact Hdata|]. split.
  - rewrite Hcount. reflexivity.
  - destruct (Hstep 0%nat _ eq_refl) as [_ Hfirst].
    destruct (Hfirst _ eq_refl) as [_ [_ Hclosed]].
    destruct (Hstep 1%nat _ eq_refl) as [_ Hsecond].
    destruct (Hsecond _ eq_refl) as [_ [Hopen _]].
    change (List.length _) with 2%nat.
    rewrite (Hopen eq_refl), (Hclosed _ eq_refl).
    change (firstn 0 _) with (@nil Attendance). cbn [aggregate fold_left].
    rewrite Hhours. vm_compute. reflexivity.
Defined.




Section WithoutIndex.

Variables (cfg : Config) (env : Env) (q : AllReportsQuery) (w : World).
Variable indexError : string.
Hypothesis composite_fails : compositeQueryError env = Some indexError.
Hypothesis is_index_error : isIndexError indexError = true.
Hypothesis simple_runs : simpleQueryError env = None.




End WithoutIndex.



(* ================================================================== *)
(** ** Sorted snapshots *)

Lemma insertBy_sorted {A} (before : A -> A -> bool) (x : A) (l : list A) :
  (forall a b, before a b = false -> before b a = true) ->
  (forall a b c, before a b = true -> before b c = true -> before a c = true) ->
  StronglySorted (fun a b => before a b = true) l ->
  StronglySorted (fun a b => before a b = true) (Store.insertBy before x l).
Proof.
  intros Htotal Htrans. induction l as [|y l IH]; intros Hsorted;
    cbn [Store.insertBy].
  - repeat constructor.
  - inversion Hsorted as [|? ? Hl Hy]; subst.
    destruct (before y x) eqn:E.
    + constructor; [now apply IH|].
      apply Forall_forall. intros z Hz. apply In_insertBy in Hz.
      destruct Hz as [-> | Hz]; [exact E|].
      rewrite Forall_forall in Hy. now apply Hy.
    + constructor; [exact Hsorted|].
      constructor; [now apply Htotal|].
      apply Forall_forall. intros z Hz. rewrite Forall_forall in Hy.
      apply Htrans with y; [now apply Htotal | now apply Hy].
Qed.

Lemma sortBy_sorted {A} (before : A -> A -> bool) (l : list A) :
  (forall a b, before a b = false -> before b a = true) ->
  (forall a b c, before a b = true -> before b c = true -> before a c = true) ->
  StronglySorted (fun a b => before a b = true) (Store.sortBy before l).
Proof.
  intros Htotal Htrans. unfold Store.sortBy.
  enough (H : forall acc,
             StronglySorted (fun a b => before a b = true) acc ->
             StronglySorted (fun a b => before a b = true)
               (fold_left (fun acc y => Store.insertBy before y acc) l acc)).
  { apply H. constructor. }
  induction l as [|y l IH]; intros acc Hacc; cbn [fold_left].
  - exact Hacc.
  - apply IH. now apply insertBy_sorted.
Qed.

Lemma length_insertBy {A} (before : A -> A -> bool) (x : A) (l : list A) :
  List.length (Store.insertBy before x l) = S (List.length l).
Proof.
  induction l as [|y l IH]; cbn [Store.insertBy]; [reflexivity|].
  destruct (before y x); cbn [List.length]; [now rewrite IH | reflexivity].
Qed.

Lemma length_sortBy {A} (before : A -> A -> bool) (l : list A) :
  List.length (Store.sortBy before l) = List.length l.
Proof.
  unfold Store.sortBy.
  enough (H : forall acc,
             List.length (fold_left (fun acc y => Store.insertBy before y acc) l acc)
             = (List.length l + List.length acc)%nat).
  { rewrite H. cbn. lia. }
  induction l as [|y l IH]; intros acc; cbn [fold_left List.length].
  - reflexivity.
  - rewrite IH, length_insertBy. lia.
Qed.

Lemma sorted_app_inv {A} (R : A -> A -> Prop) (l1 l2 : list A) :
  StronglySorted R (l1 ++ l2) ->
  forall a b, In a l1 -> In b l2 -> R a b.
Proof.
  induction l1 as [|x l1 IH]; cbn [app]; intros Hsorted a b Ha Hb.
  - destruct Ha.
  - inversion Hsorted as [|? ? Hrest Hx]; subst.
    destruct Ha as [-> | Ha].
    + rewrite Forall_forall in Hx. apply Hx. apply in_or_app. now right.
    + now apply IH.
Qed.



(* ================================================================== *)
(** ** More on the manual exit *)

(** The records [recordExit] searches are records of the employee. *)
Lemma exitSnapshot_of_employee (env : Env) (id : string) (w w' : World)
    (docs : list Doc) :
  exitSnapshot env id w = (Next docs, w') ->
  incl docs (Store.whereEmployee id (attendance (db w))).
Proof.
  unfold exitSnapshot. unfold_handler.
  destruct (compositeQueryError env) as [msg|].
  - destruct (isIndexError msg).
    + destruct (simpleQueryError env); intros H; inversion H; subst.
      apply incl_refl.
    + intros H; inversion H.
  - intros H; inversion H; subst.
    intros d Hd. apply In_sortBy in Hd.
    now apply whereEntryBetween_incl in Hd.
Qed.

(** X1. For every manual exit for a known employee whose attendance
    query runs: when the store holds no record of that employee without
    exitTime, the exit is refused with 400 "No entry attendance found
    for today. Please record entry first." and the store and the outbox
    are left as they were. *)
Theorem recordExit_without_open_session (cfg : Config) (env : Env) (user : User)
    (body : ExitBody) (w : World) (employee : Employee) (docs : list Doc) :
  Store.lookup (ext_employeeId body) (employees (db w)) = Some employee ->
  exitSnapshot env (ext_employeeId body) w = (Next docs, w) ->
  openSessions (ext_employeeId body) (db w) = [] ->
  run (recordExit cfg env user body) w
  = ({| status := 400; success := false;
        message := "No entry attendance found for today. Please record entry first.";
        data := NoData |}, w).
Proof.
  intros Hemp Hsnap Hnone.
  assert (Hfirst : firstOpen (Store.byEntryDesc docs) = None).
  { destruct (firstOpen (Store.byEntryDesc docs)) as [d|] eqn:E; [|reflexivity].
    apply firstOpen_In in E. destruct E as [Hin Hopen].
    apply In_sortBy in Hin.
    apply (exitSnapshot_of_employee _ _ _ _ _ Hsnap) in Hin.
    assert (Hd : In d (openSessions (ext_employeeId body) (db w))).
    { unfold openSessions. apply filter_In. split; [exact Hin|].
      now rewrite Hopen. }
    rewrite Hnone in Hd. destruct Hd. }
  unfold recordExit.
  rewrite (run_bind_next _ _ w w (Some employee))
    by (unfold Store.getEmployee; now rewrite Hemp).
  rewrite (run_bind_next _ _ w w docs) by exact Hsnap.
  cbv zeta. now rewrite Hfirst.
Qed.

Lemma recordExit_without_open_session_witness :
  status (fst (run (recordExit defaultConfig Sample.clock Sample.asAmal
                      (Sample.exitAt (Sample.nine + Sample.hour)))
                 Sample.twoYears)) = 400
  /\ snd (run (recordExit defaultConfig Sample.clock Sample.asAmal
                 (Sample.exitAt (Sample.nine + Sample.hour))) Sample.twoYears)
     = Sample.twoYears.
Proof.
  rewrite (recordExit_without_open_session defaultConfig Sample.clock
             Sample.asAmal (Sample.exitAt (Sample.nine + Sample.hour))
             Sample.twoYears Sample.amal
             [(2%nat, AttendanceController.withExit
                        (Sample.nine + 8 * Sample.hour) Sample.office Sample.nine
                        (Sample.entryAt Sample.nine manual))]);
    [split; reflexivity | reflexivity | vm_compute; reflexivity
    | vm_compute; reflexivity].
Defined.



(** X3. With the composite index in place, a manual exit finds only the
    sessions entered within thirty days of now: when every open session
    of the employee was entered more than thirty days ago, or more than
    thirty days ahead, the exit is refused with 400 "No entry attendance
    found for today. Please record entry first." and nothing changes. *)
Theorem recordExit_window_of_thirty_days (cfg : Config) (env : Env) (user : User)
    (body : ExitBody) (w : World) (employee : Employee) :
  Store.lookup (ext_employeeId body) (employees (db w)) = Some employee ->
  compositeQueryError env = None ->
  (forall doc t,
     In doc (openSessions (ext_employeeId body) (db w)) ->
     entryTime (snd doc) = Some t ->
     t < now env - 30 * JsDate.msPerDay \/ now env + 30 * JsDate.msPerDay < t) ->
  run (recordExit cfg env user body) w
  = ({| status := 400; success := false;
        message := "No entry attendance found for today. Please record entry first.";
        data := NoData |}, w).
Proof.
  intros Hemp Hindex Hold.
  unfold recordExit, exitSnapshot. unfold_handler. rewrite Hemp, Hindex.
  match goal with
  | |- context [firstOpen ?l] => destruct (firstOpen l) as [doc|] eqn:Hfirst
  end; [|reflexivity].
  exfalso. apply firstOpen_In in Hfirst. destruct Hfirst as [Hin Hopen].
  apply In_sortBy in Hin. apply In_sortBy in Hin.
  apply filter_In in Hin. destruct Hin as [Hin Hrange].
  destruct (entryTime (snd doc)) as [t|] eqn:Hentry; [|discriminate].
  assert (Hsession : In doc (openSessions (ext_employeeId body) (db w))).
  { unfold openSessions. apply filter_In. split; [exact Hin|]. now rewrite Hopen. }
  specialize (Hold doc t Hsession Hentry).
  apply andb_prop in Hrange. destruct Hrange as [H1 H2].
  apply Z.leb_le in H1, H2. unfold JsDate.msPerDay in Hold. lia.
Qed.

Lemma recordExit_window_of_thirty_days_witness :
  openSessions "E1" (db Scenario.stale)
  = [(1%nat, Sample.entryAt (Sample.nine - 40 * JsDate.msPerDay) manual)]
  /\ status (fst (run (recordExit defaultConfig Sample.clock Sample.asAmal
                         (Sample.exitAt Sample.nine)) Scenario.stale)) = 400.
Proof.
  split; [reflexivity|].
  rewrite (recordExit_window_of_thirty_days defaultConfig Sample.clock
             Sample.asAmal (Sample.exitAt Sample.nine) Scenario.stale Sample.amal);
    [reflexivity | reflexivity | reflexivity |].
  intros doc t [<- | []] [= <-]. left. vm_compute. reflexivity.
Defined.

(* ================================================================== *)
(** ** The attendance history *)

Lemma byCreatedDesc_sorted (docs : list Doc) :
  StronglySorted (fun y x => createdAt (snd x) <= createdAt (snd y))
    (byCreatedDesc docs).
Proof.
  unfold byCreatedDesc.
  eapply StronglySorted_ind with
    (P := fun l => StronglySorted
                     (fun y x => createdAt (snd x) <= createdAt (snd y)) l);
    [constructor | | apply sortBy_sorted].
  - intros a l _ IH Ha. constructor; [exact IH|].
    eapply Forall_impl; [|exact Ha]. intros b Hb. now apply Z.leb_le.
  - intros a b H. apply Z.leb_gt in H. apply Z.leb_le. lia.
  - intros a b c H1 H2. apply Z.leb_le in H1, H2. apply Z.leb_le. lia.
Qed.

Lemma In_firstn {A} (n : nat) (x : A) (l : list A) :
  In x (firstn n l) -> In x l.
Proof.
  intros H. rewrite <- (firstn_skipn n l). apply in_or_app. now left.
Qed.

(** X4. For the employee or an admin, getAttendance, when its query
    runs, answers with at most seven entries, min(7, number of the
    employee's records) of them; each is a record of that employee in
    the store, and every record of the employee is either returned or
    created no later than every returned one. *)
Theorem getAttendance_latest_seven (user : User) (id : string) (w : World) :
  notAuthorized user id = false ->
  exists entries,
    answer (getAttendance None user id) w
    = (inr {| found_message := "Attendance retrieved successfully";
              found_data := entries |}, w)
    /\ (List.length entries <= 7)%nat
    /\ List.length entries
       = Nat.min 7 (List.length (Store.whereEmployee id (attendance (db w))))
    /\ (forall e, In e entries ->
          employeeId (entry_record e) = id
          /\ In (entry_id e, entry_record e) (attendance (db w)))
    /\ (forall d, In d (Store.whereEmployee id (attendance (db w))) ->
          In (populate (employees (db w)) d) entries
          \/ forall e, In e entries ->
               createdAt (snd d) <= createdAt (entry_record e)).
Proof.
  intros Hauth.
  set (sorted := byCreatedDesc (Store.whereEmployee id (attendance (db w)))).
  exists (map (populate (employees (db w))) (firstn 7 sorted)).
  split; [|split; [|split; [|split]]].
  - unfold answer, getAttendance. unfold_handler. now rewrite Hauth.
  - rewrite length_map, length_firstn. lia.
  - rewrite length_map, length_firstn. unfold sorted, byCreatedDesc.
    now rewrite length_sortBy.
  - intros e He. apply in_map_iff in He. destruct He as [d [<- Hd]].
    apply In_firstn in Hd. apply In_sortBy in Hd.
    cbn [populate entry_id entry_record].
    split.
    + apply filter_In in Hd. destruct Hd as [_ Hd]. now apply String.eqb_eq.
    + apply whereEmployee_incl in Hd. now destruct d.
  - intros d Hd.
    assert (Hin : In d sorted) by now apply In_sortBy.
    rewrite <- (firstn_skipn 7 sorted) in Hin. apply in_app_or in Hin.
    destruct Hin as [Hin | Hin].
    + left. now apply in_map.
    + right. intros e He. apply in_map_iff in He. destruct He as [d' [<- Hd']].
      cbn [populate entry_record].
      pose proof (byCreatedDesc_sorted
                    (Store.whereEmployee id (attendance (db w)))) as Hsorted.
      fold sorted in Hsorted. rewrite <- (firstn_skipn 7 sorted) in Hsorted.
      exact (sorted_app_inv _ _ _ Hsorted d' d Hd' Hin).
Qed.

Lemma getAttendance_latest_seven_witness :
  List.length (Store.whereEmployee "E1" (attendance (db Scenario.eightDays)))
  = 8%nat
  /\ exists entries,
       answer (getAttendance None Sample.asAmal "E1") Scenario.eightDays
       = (inr {| found_message := "Attendance retrieved successfully";
                 found_data := entries |}, Scenario.eightDays)
       /\ List.length entries = 7%nat.
Proof.
  split; [reflexivity|].
  destruct (getAttendance_latest_seven Sample.asAmal "E1" Scenario.eightDays
              eq_refl) as [entries [Hanswer [_ [Hlength _]]]].
  exists entries. split; [exact Hanswer|]. rewrite Hlength. reflexivity.
Defined.

(* ================================================================== *)
(** ** What the requests write *)

Lemma find_absent (i : DocId) (a : Attendance) (docs : list Doc) :
  (forall d, In d docs -> fst d <> i) ->
  Store.find i (docs ++ [(i, a)]) = Some a.
Proof.
  induction docs as [|[j b] docs IH]; intros Hfresh; cbn [app Store.find].
  - now rewrite Nat.eqb_refl.
  - destruct (Nat.eqb j i) eqn:E.
    + apply Nat.eqb_eq in E. exfalso. apply (Hfresh (j, b)); [now left | exact E].
    + apply IH. intros d Hd. apply Hfresh. now right.
Qed.

(** The record just added is the one read back. *)
Lemma find_fresh (a : Attendance) (docs : list Doc) :
  Store.find (Store.freshId docs) (docs ++ [(Store.freshId docs, a)]) = Some a.
Proof.
  apply find_absent. intros d Hd. apply freshId_above in Hd. lia.
Qed.

Lemma validId_some (id : option string) :
  isValidFirebaseId id = true ->
  exists s, id = Some s /\ s <> "".
Proof.
  destruct id as [s|]; cbn; [|discriminate].
  intros H. exists s. split; [reflexivity|].
  intros ->. discriminate.
Qed.

(** X5. What a request writes.  No request changes the employees.  A
    201 response is given to an entry only, which appends exactly one
    record under a fresh id: the record returned, for the employee, the
    entry time, the location and the method of the request, without
    exitTime.  A 200 response is given to an exit only, which adds and
    removes no document.  Any other response leaves the database as it
    was. *)
Theorem handle_writes (cfg : Config) (env : Env) (r : Request) (w : World) :
  let result := run (handle cfg env r) w in
  let fresh := Store.freshId (attendance (db w)) in
  employees (db (snd result)) = employees (db w)
  /\ (status (fst result) = 201 ->
      isEntry r = true
      /\ exists a,
           attendance (db (snd result))
           = (attendance (db w) ++ [(fresh, a)])%list
           /\ data (fst result) = AttendanceData fresh (Some a)
           /\ claimedEmployee r = Some (employeeId a)
           /\ entryTime a = Some (claimedTime r)
           /\ exitTime a = None
           /\ location a = claimedLocation r
           /\ method a = claimedMethod r)
  /\ (status (fst result) = 200 ->
      isEntry r = false
      /\ map fst (attendance (db (snd result))) = map fst (attendance (db w)))
  /\ (status (fst result) <> 201 -> status (fst result) <> 200 ->
      db (snd result) = db w).
Proof.
  cbv zeta. destruct r as [user body | user body | user body | user body];
    unfold_request.
  - repeat case_guard; rewrite ?find_fresh; leaf;
      try (destruct (db w); reflexivity);
      try (rewrite find_fresh; eexists; repeat split; reflexivity);
      try (exfalso; congruence).
  - repeat case_guard; leaf;
      try (destruct (db w); reflexivity);
      try apply modify_ids;
      try (exfalso; congruence).
  - cbn [claimedEmployee isEntry claimedLocation claimedTime claimedMethod].
    destruct (scan_qrData body) as [| |payload];
      [leaf; destruct (db w); reflexivity
      |leaf; destruct (db w); reflexivity|].
    destruct (isValidFirebaseId (qr_employeeId payload)) eqn:Hvalid; cbn [negb];
      [|leaf; destruct (db w); reflexivity].
    apply validId_some in Hvalid. destruct Hvalid as [id [-> Hne]].
    repeat case_guard; rewrite ?find_fresh; leaf;
      try (destruct (db w); reflexivity);
      try (rewrite find_fresh; eexists; repeat split; reflexivity);
      try (exfalso; congruence).
  - repeat case_guard; rewrite ?find_fresh; leaf;
      try (destruct (db w); reflexivity);
      try (rewrite find_fresh; eexists; repeat split; reflexivity);
      try (exfalso; congruence).
Qed.

Lemma handle_count (cfg : Config) (env : Env) (r : Request) (w : World) :
  List.length (attendance (db (snd (run (handle cfg env r) w))))
  = (List.length (attendance (db w))
     + if (status (fst (run (handle cfg env r) w)) =? 201)%Z then 1 else 0)%nat.
Proof.
  assert (Hmodify : forall id f docs,
             List.length (Store.modify id f docs) = List.length docs)
    by (intros; unfold Store.modify; apply length_map).
  destruct r as [user body | user body | user body | user body];
    unfold_request; repeat case_guard;
    cbn [fst snd status db attendance Z.eqb Pos.eqb];
    rewrite ?length_app, ?Hmodify; cbn [List.length]; lia.
Qed.

(** X6. After any sequence of requests served one after the other,
    getTotalAttendanceCount is its value before plus the number of 201
    responses given; each request gets one response. *)
Theorem total_count_after_requests (cfg : Config)
    (requests : list (Env * Request)) (w : World) :
  let served := serveAll cfg requests w in
  exists before after,
    answer (getTotalAttendanceCount None) w
    = (inr {| found_message := "Total attendance count retrieved successfully";
              found_data := before |}, w)
    /\ answer (getTotalAttendanceCount None) (snd served)
       = (inr {| found_message := "Total attendance count retrieved successfully";
                 found_data := after |}, snd served)
    /\ after = (before + created (fst served))%nat
    /\ List.length (fst served) = List.length requests.
Proof.
  cbv zeta.
  exists (List.length (attendance (db w))),
         (List.length (attendance (db (snd (serveAll cfg requests w))))).
  split; [reflexivity | split; [reflexivity|]].
  revert w. induction requests as [|[env r] requests IH]; intros w.
  - cbn. split; [lia | reflexivity].
  - cbn [serveAll fst snd]. destruct (IH (snd (run (handle cfg env r) w)))
      as [Hcount Hlen].
    split.
    + rewrite Hcount, handle_count. unfold created. cbn [filter].
      destruct (status (fst (run (handle cfg env r) w)) =? 201)%Z;
        cbn [List.length]; lia.
    + cbn [List.length]. now rewrite Hlen.
Qed.

(** X7. Every entry that is recorded (201), by manual entry, QR scan
    or face, names a known employee, is asked by that employee or by an
    admin, and comes from a location whose distance to the allowed
    location is not above the allowed radius. *)
Theorem recorded_entry_passed_checks (cfg : Config) (env : Env) (r : Request)
    (w : World) :
  status (fst (run (handle cfg env r) w)) = 201 ->
  exists id employee,
    claimedEmployee r = Some id
    /\ Store.lookup id (employees (db w)) = Some employee
    /\ notAuthorized (requester r) id = false
    /\ JsNumber.gtb (locationDistance cfg (claimedLocation r)) (allowedRadius cfg)
       = false.
Proof.
  destruct r as [user body | user body | user body | user body];
    cbn [claimedEmployee claimedLocation requester]; unfold_request.
  - repeat case_guard; leaf; eexists _, _; repeat split; eassumption.
  - repeat case_guard; leaf.
  - destruct (scan_qrData body) as [| |payload]; [leaf | leaf |].
    destruct (isValidFirebaseId (qr_employeeId payload)) eqn:Hvalid; cbn [negb];
      [|leaf].
    apply validId_some in Hvalid. destruct Hvalid as [id [-> Hne]].
    repeat case_guard; leaf; eexists _, _; repeat split; eassumption.
  - unfold notAuthorized.
    repeat case_guard; leaf; eexists _, _; repeat split; eassumption.
Qed.

Lemma recorded_entry_passed_checks_witness :
  status (fst (run (handle defaultConfig Sample.clock
                      (ManualEntry Sample.asAmal Sample.manualEntry))
                 Sample.empty)) = 201
  /\ JsNumber.gtb (locationDistance defaultConfig Sample.office)
       (allowedRadius defaultConfig) = false.
Proof.
  assert (H : status (fst (run (handle defaultConfig Sample.clock
                                  (ManualEntry Sample.asAmal Sample.manualEntry))
                             Sample.empty)) = 201) by (vm_compute; reflexivity).
  split; [exact H|].
  destruct (recorded_entry_passed_checks _ _ _ _ H)
    as [id [employee [_ [_ [_ Hinside]]]]].
  exact Hinside.
Defined.

(** X8. An entry asked for another employee by a requester who is not
    an admin is refused on every path: the store and the outbox are
    unchanged, success is false and the status is not 201. *)
Theorem unauthorized_entry_changes_nothing (cfg : Config) (env : Env)
    (r : Request) (w : World) (id : string) :
  isEntry r = true ->
  claimedEmployee r = Some id ->
  notAuthorized (requester r) id = true ->
  let result := run (handle cfg env r) w in
  snd result = w /\ success (fst result) = false /\ status (fst result) <> 201.
Proof.
  cbv zeta. intros Hentry Hid Hauth.
  destruct r as [user body | user body | user body | user body];
    try discriminate; cbn [requester claimedEmployee] in *.
  - injection Hid as <-. unfold_request. rewrite Hauth.
    repeat case_guard; leaf.
  - destruct (scan_qrData body) as [| |payload] eqn:Hdata; try discriminate.
    unfold_request. rewrite Hdata, Hid. cbn [isValidFirebaseId].
    rewrite Hauth. repeat case_guard; leaf.
  - injection Hid as <-. unfold notAuthorized in Hauth.
    unfold_request. rewrite Hauth.
    repeat case_guard; leaf.
Qed.

Lemma unauthorized_entry_changes_nothing_witness :
  let result :=
    run (handle defaultConfig Sample.clock
           (QrScan Sample.asOther (Sample.scan 0 None))) Sample.empty in
  snd result = Sample.empty /\ success (fst result) = false
  /\ status (fst result) <> 201.
Proof.
  apply (unauthorized_entry_changes_nothing defaultConfig Sample.clock
           (QrScan Sample.asOther (Sample.scan 0 None)) Sample.empty "E1");
    reflexivity.
Defined.

(* ================================================================== *)
(** ** The allowed area *)

Lemma ltb_nan_r (x : float) : (x <? nan)%float = false.
Proof.
  rewrite FloatAxioms.ltb_spec. change (Prim2SF nan) with S754_nan.
  now destruct (Prim2SF x) as [[] | [] | | [] ? ?].
Qed.

Lemma ltb_zero_of_leb (x : float) :
  (0 <=? x)%float = true -> (x <? 0)%float = false.
Proof.
  rewrite FloatAxioms.leb_spec, FloatAxioms.ltb_spec. change (Prim2SF 0) with (S754_zero false).
  now destruct (Prim2SF x) as [[] | [] | | [] ? ?].
Qed.

(** At the allowed location the distance is 0, or NaN when a coordinate
    is not finite. *)
Lemma locationDistance_at_allowed (cfg : Config) :
  let d := locationDistance cfg (allowedLng cfg, allowedLat cfg) in
  d = 0%float \/ d = nan.
Proof.
  unfold locationDistance. cbn [fst snd].
  destruct (sub_self (allowedLng cfg)) as [-> | ->],
           (sub_self (allowedLat cfg)) as [-> | ->];
    [left | right | right | right]; reflexivity.
Qed.

Lemma inside_at_allowed (cfg : Config) :
  (0 <=? allowedRadius cfg)%float = true ->
  JsNumber.gtb (locationDistance cfg (allowedLng cfg, allowedLat cfg))
    (allowedRadius cfg) = false.
Proof.
  intros Hradius. unfold JsNumber.gtb.
  destruct (locationDistance_at_allowed cfg) as [H | H]; cbv zeta in H;
    rewrite H; [now apply ltb_zero_of_leb | apply ltb_nan_r].
Qed.

(** X9. With a radius that is not negative, a request made from the
    allowed location itself is never answered "Location outside allowed
    area" and sends no location_issue notice: the computed distance is
    0, or NaN when a coordinate is not finite, and neither is above the
    radius. *)
Theorem never_outside_at_allowed_location (cfg : Config) (env : Env)
    (r : Request) (w : World) :
  (0 <=? allowedRadius cfg)%float = true ->
  claimedLocation r = (allowedLng cfg, allowedLat cfg) ->
  let result := run (handle cfg env r) w in
  message (fst result) <> "Location outside allowed area"
  /\ forall e, In e (outbox (snd result)) -> kind e = Some "location_issue" ->
               In e (outbox w).
Proof.
  cbv zeta. intros Hradius Hlocation.
  pose proof (inside_at_allowed cfg Hradius) as Hinside.
  destruct r as [user body | user body | user body | user body];
    cbn [claimedLocation] in Hlocation; unfold_request;
    rewrite ?Hlocation, ?Hinside.
  - repeat case_guard; leaf;
      try (match goal with H : In _ (_ ++ _) |- _ =>
             apply in_app_or in H; destruct H as [H | [<- | []]];
             [exact H | discriminate] end).
  - repeat case_guard; leaf;
      try (match goal with H : In _ (_ ++ _) |- _ =>
             apply in_app_or in H; destruct H as [H | [<- | []]];
             [exact H | discriminate] end).
  - repeat case_guard; leaf;
      try (match goal with H : In _ (_ ++ _) |- _ =>
             apply in_app_or in H; destruct H as [H | [<- | []]];
             [exact H | discriminate] end).
  - repeat case_guard; leaf;
      try (match goal with H : In _ (_ ++ _) |- _ =>
             apply in_app_or in H; destruct H as [H | [<- | []]];
             [exact H | discriminate] end).
Qed.

Lemma never_outside_at_allowed_location_witness :
  message (fst (run (handle defaultConfig Sample.clock
                       (ManualEntry Sample.asAmal Sample.manualEntry))
                  Sample.empty))
  <> "Location outside allowed area".
Proof.
  destruct (never_outside_at_allowed_location defaultConfig Sample.clock
              (ManualEntry Sample.asAmal Sample.manualEntry) Sample.empty)
    as [Hmessage _]; [vm_compute; reflexivity | reflexivity |].
  exact Hmessage.
Defined.

(* ================================================================== *)
(** ** Notifications *)

(** X10. A recorded entry (201) sends exactly one notice, "Late
    Attendance Notification" to the employee's address, when its entry
    time is at 9 o'clock local time or later, and none otherwise. *)
Theorem late_notice_on_recorded_entry (cfg : Config) (env : Env) (r : Request)
    (w : World) :
  let result := run (handle cfg env r) w in
  status (fst result) = 201 ->
  exists id employee,
    claimedEmployee r = Some id
    /\ Store.lookup id (employees (db w)) = Some employee
    /\ outbox (snd result)
       = (outbox w
          ++ if 9 <=? JsDate.getHours (tzOffset cfg) (claimedTime r)
             then [{| recipient := email employee;
                      subject := "Late Attendance Notification";
                      kind := Some "late_arrival" |}]
             else [])%list.
Proof.
  cbv zeta.
  destruct r as [user body | user body | user body | user body];
    cbn [claimedEmployee claimedTime]; unfold_request.
  - repeat case_guard; leaf;
      eexists _, _; (split; [reflexivity | split; [eassumption|]]);
      rewrite ?app_nil_r; reflexivity.
  - repeat case_guard; leaf.
  - destruct (scan_qrData body) as [| |payload]; [leaf | leaf |].
    destruct (isValidFirebaseId (qr_employeeId payload)) eqn:Hvalid; cbn [negb];
      [|leaf].
    apply validId_some in Hvalid. destruct Hvalid as [id [-> Hne]].
    repeat case_guard; leaf;
      eexists _, _; (split; [reflexivity | split; [eassumption|]]);
      rewrite ?app_nil_r; reflexivity.
  - repeat case_guard; leaf;
      eexists _, _; (split; [reflexivity | split; [eassumption|]]);
      rewrite ?app_nil_r; reflexivity.
Qed.

Lemma late_notice_on_recorded_entry_witness :
  JsDate.getHours (tzOffset defaultConfig) Sample.nine = 9
  /\ exists id employee,
       claimedEmployee (ManualEntry Sample.asAmal Sample.manualEntry) = Some id
       /\ Store.lookup id (employees (db Sample.empty)) = Some employee
       /\ outbox (snd (run (handle defaultConfig Sample.clock
                              (ManualEntry Sample.asAmal Sample.manualEntry))
                         Sample.empty))
          = [{| recipient := email employee;
                subject := "Late Attendance Notification";
                kind := Some "late_arrival" |}].
Proof.
  split; [reflexivity|].
  destruct (late_notice_on_recorded_entry defaultConfig Sample.clock
              (ManualEntry Sample.asAmal Sample.manualEntry) Sample.empty)
    as [id [employee [Hid [Hemp Hout]]]]; [vm_compute; reflexivity|].
  exists id, employee. split; [exact Hid | split; [exact Hemp|]].
  rewrite Hout. reflexivity.
Defined.

(** X11. A request answered "Location outside allowed area" or
    "Invalid or expired QR code" leaves the database unchanged and sends
    exactly one notice to the employee ("Unauthorized Location Attempt",
    respectively "Expired QR Code Attempt").  Any other unsuccessful
    response leaves the database unchanged too, and the outbox unless
    it is the 500 of an entry whose entryTime no Timestamp holds: the
    late notice of that entry, when it is due, has been sent before the
    record is built.  With an entryTime that a Timestamp holds, such a
    response changes nothing. *)
Theorem refused_entry_notices (cfg : Config) (env : Env) (r : Request)
    (w : World) :
  let result := run (handle cfg env r) w in
  (message (fst result) = "Location outside allowed area" ->
   db (snd result) = db w
   /\ exists id employee,
        claimedEmployee r = Some id
        /\ Store.lookup id (employees (db w)) = Some employee
        /\ outbox (snd result)
           = (outbox w ++ [{| recipient := email employee;
                              subject := "Unauthorized Location Attempt";
                              kind := Some "location_issue" |}])%list)
  /\ (message (fst result) = "Invalid or expired QR code" ->
      db (snd result) = db w
      /\ exists id employee,
           claimedEmployee r = Some id
           /\ Store.lookup id (employees (db w)) = Some employee
           /\ outbox (snd result)
              = (outbox w ++ [{| recipient := email employee;
                                 subject := "Expired QR Code Attempt";
                                 kind := Some "expired_qr" |}])%list)
  /\ (success (fst result) = false ->
      message (fst result) <> "Location outside allowed area" ->
      message (fst result) <> "Invalid or expired QR code" ->
      db (snd result) = db w
      /\ (Timestamp.holds (claimedTime r) = true -> snd result = w)
      /\ (outbox (snd result) = outbox w
          \/ (status (fst result) = 500
              /\ message (fst result) = "Server error"
              /\ Timestamp.holds (claimedTime r) = false
              /\ exists id employee,
                   claimedEmployee r = Some id
                   /\ Store.lookup id (employees (db w)) = Some employee
                   /\ outbox (snd result)
                      = (outbox w
                         ++ [{| recipient := email employee;
                                subject := "Late Attendance Notification";
                                kind := Some "late_arrival" |}])%list))).
Proof.
  cbv zeta.
  destruct r as [user body | user body | user body | user body];
    cbn [claimedEmployee claimedTime]; unfold_request.
  - repeat case_guard; leaf; try (exfalso; congruence);
      try (left; reflexivity);
      try (right; split; [reflexivity | split; [reflexivity | split;
                                                    [assumption|]]]);
      eexists _, _; (split; [reflexivity | split; [eassumption|]]); reflexivity.
  - repeat case_guard; leaf; try (exfalso; congruence); left; reflexivity.
  - destruct (scan_qrData body) as [| |payload];
      [leaf; left; reflexivity | leaf; left; reflexivity |].
    destruct (isValidFirebaseId (qr_employeeId payload)) eqn:Hvalid; cbn [negb];
      [|leaf; left; reflexivity].
    apply validId_some in Hvalid. destruct Hvalid as [id [-> Hne]].
    repeat case_guard; leaf; try (exfalso; congruence);
      try (left; reflexivity);
      try (right; split; [reflexivity | split; [reflexivity | split;
                                                    [assumption|]]]);
      eexists _, _; (split; [reflexivity | split; [eassumption|]]); reflexivity.
  - unfold notRecognized.
    repeat case_guard; leaf; try (exfalso; congruence);
      try (left; reflexivity);
      try (right; split; [reflexivity | split; [reflexivity | split;
                                                    [assumption|]]]);
      eexists _, _; (split; [reflexivity | split; [eassumption|]]); reflexivity.
Qed.

(** A manual entry for noon of 0000-06-15: the late notice is sent, the
    date is refused by [Timestamp.fromDate], and nothing is recorded. *)
Lemma refused_entry_notices_witness :
  let result :=
    run (handle defaultConfig Sample.clock
           (ManualEntry Sample.asAmal Scenario.inYearZero)) Sample.empty in
  JsDate.isoDate (AttendanceController.ent_entryTime Scenario.inYearZero)
  = "0000-06-15"
  /\ status (fst result) = 500
  /\ message (fst result) = "Server error"
  /\ db (snd result) = db Sample.empty
  /\ outbox (snd result)
     = [{| recipient := "amal@example.com";
           subject := "Late Attendance Notification";
           kind := Some "late_arrival" |}].
Proof.
  cbv zeta.
  destruct (refused_entry_notices defaultConfig Sample.clock
              (ManualEntry Sample.asAmal Scenario.inYearZero) Sample.empty)
    as [_ [_ Hother]].
  destruct Hother as [Hdb [_ Hnotice]];
    [reflexivity | discriminate | discriminate |].
  split; [vm_compute; reflexivity|].
  split; [reflexivity | split; [reflexivity | split; [exact Hdb|]]].
  destruct Hnotice as [Hnone | [_ [_ [_ [id [employee [Hid [Hemp Hsent]]]]]]]].
  - vm_compute in Hnone. discriminate.
  - rewrite Hsent. injection Hid as <-. injection Hemp as <-. reflexivity.
Defined.

(* ================================================================== *)
(** ** QR codes from issue to scan *)

(** X12. A code issued by generateQrCode (200) carries the employee,
    the time of issue and an expiresAt twelve hours later.  Scanned by
    the same requester from inside the allowed area, with an entryTime
    that a Firestore Timestamp holds, it records an entry (201) up to
    five minutes after its issue; after that it is refused with 401 and
    the database is unchanged, long before its expiresAt. *)
Theorem generated_code_scans_for_five_minutes (cfg : Config)
    (issuing scanning : Env) (user : User) (id : string) (w later : World)
    (employee : Employee) (coordinates : Coordinates) (entry : Instant) :
  id <> "" ->
  status (fst (run (generateQrCode issuing user id) w)) = 200 ->
  Store.lookup id (employees (db later)) = Some employee ->
  JsNumber.gtb (locationDistance cfg coordinates) (allowedRadius cfg) = false ->
  Timestamp.holds entry = true ->
  exists payload,
    data (fst (run (generateQrCode issuing user id) w)) = QrCodeData payload
    /\ qr_employeeId payload = Some id
    /\ timestamp payload = Some (now issuing)
    /\ expiresAt payload = Some (now issuing + 12 * 60 * 60 * 1000)
    /\ let scanned :=
         run (scanQrCode cfg scanning user
                {| scan_qrData := JsonObject payload;
                   scan_location := coordinates;
                   scan_entryTime := entry |}) later in
       (now scanning - now issuing <= 5 * 60 * 1000 ->
        status (fst scanned) = 201)
       /\ (5 * 60 * 1000 < now scanning - now issuing ->
           status (fst scanned) = 401 /\ db (snd scanned) = db later).
Proof.
  intros Hne Hissued Hemp Hinside Hheld.
  assert (Hauth : notAuthorized user id = false).
  { revert Hissued. unfold generateQrCode. unfold_handler.
    destruct (Store.lookup id (employees (db w))); [|discriminate].
    destruct (notAuthorized user id); [discriminate | reflexivity]. }
  assert (Hdata : data (fst (run (generateQrCode issuing user id) w))
                  = QrCodeData {| qr_employeeId := Some id;
                                  timestamp := Some (now issuing);
                                  expiresAt := Some (now issuing
                                                     + 12 * 60 * 60 * 1000) |}).
  { revert Hissued. unfold generateQrCode. unfold_handler.
    destruct (Store.lookup id (employees (db w))); [|discriminate].
    rewrite Hauth. reflexivity. }
  eexists. split; [exact Hdata|].
  split; [reflexivity | split; [reflexivity | split; [reflexivity|]]].
  cbv zeta. unfold scanQrCode. cbn [scan_qrData scan_location scan_entryTime
                                     qr_employeeId timestamp isValidFirebaseId].
  apply String.eqb_neq in Hne. rewrite Hne. cbn [negb]. unfold qrExpired.
  unfold_handler. rewrite Hauth, Hemp.
  split; intros Hage.
  - replace (5 * 60 * 1000 <? now scanning - now issuing) with false
      by (symmetry; apply Z.ltb_ge; lia).
    rewrite Hinside, Hheld.
    now destruct (9 <=? JsDate.getHours (tzOffset cfg) entry).
  - replace (5 * 60 * 1000 <? now scanning - now issuing) with true
      by (symmetry; apply Z.ltb_lt; lia).
    split; reflexivity.
Qed.

Lemma generated_code_scans_for_five_minutes_witness :
  exists payload,
    data (fst (run (generateQrCode Sample.clock Sample.asAmal "E1") Sample.empty))
    = QrCodeData payload
    /\ expiresAt payload = Some (Sample.nine + 12 * Sample.hour)
    /\ status (fst (run (scanQrCode defaultConfig Scenario.fourMinutesLater
                           Sample.asAmal
                           {| scan_qrData := JsonObject payload;
                              scan_location := Sample.office;
                              scan_entryTime := Sample.nine |}) Sample.empty))
       = 201.
Proof.
  destruct (generated_code_scans_for_five_minutes defaultConfig Sample.clock
              Scenario.fourMinutesLater Sample.asAmal "E1" Sample.empty
              Sample.empty Sample.amal Sample.office Sample.nine)
    as [payload [Hdata [_ [_ [Hexpires [Hfresh _]]]]]];
    [discriminate | reflexivity | reflexivity | vm_compute; reflexivity
    | reflexivity |].
  exists payload. split; [exact Hdata|]. split; [exact Hexpires|].
  apply Hfresh. vm_compute. discriminate.
Defined.

(** X13. A scanned code whose payload has no timestamp is never
    refused as expired (no 401): with a valid employeeId, an authorized
    requester, a known employee, a location inside the allowed area and
    an entryTime that a Firestore Timestamp holds, the entry is recorded
    (201), whatever the clock reads. *)
Theorem scanQrCode_without_timestamp (cfg : Config) (env : Env) (user : User)
    (body : ScanBody) (w : World) (payload : QrPayload) :
  scan_qrData body = JsonObject payload ->
  timestamp payload = None ->
  let result := run (scanQrCode cfg env user body) w in
  status (fst result) <> 401
  /\ forall id employee,
       qr_employeeId payload = Some id ->
       id <> "" ->
       notAuthorized user id = false ->
       Store.lookup id (employees (db w)) = Some employee ->
       JsNumber.gtb (locationDistance cfg (scan_location body))
         (allowedRadius cfg) = false ->
       Timestamp.holds (scan_entryTime body) = true ->
       status (fst result) = 201.
Proof.
  intros Hdata Hstamp. cbv zeta. unfold scanQrCode. rewrite Hdata, Hstamp.
  unfold qrExpired. split.
  - unfold_handler. repeat case_guard; cbn [fst status]; discriminate.
  - intros id employee Hid Hne Hauth Hemp Hinside Hheld.
    rewrite Hid. cbn [isValidFirebaseId]. apply String.eqb_neq in Hne.
    rewrite Hne. cbn [negb]. unfold_handler.
    rewrite Hauth, Hemp, Hinside, Hheld.
    now destruct (9 <=? JsDate.getHours (tzOffset cfg) (scan_entryTime body)).
Qed.

Lemma scanQrCode_without_timestamp_witness :
  status (fst (run (scanQrCode defaultConfig Sample.clock Sample.asAmal
                      Scenario.untimed) Sample.empty)) = 201.
Proof.
  destruct (scanQrCode_without_timestamp defaultConfig Sample.clock Sample.asAmal
              Scenario.untimed Sample.empty
              {| qr_employeeId := Some "E1"; timestamp := None;
                 expiresAt := None |} eq_refl eq_refl) as [_ Hrecorded].
  apply (Hrecorded "E1" Sample.amal);
    [reflexivity | discriminate | reflexivity | reflexivity
    | vm_compute; reflexivity | reflexivity].
Defined.

(* ================================================================== *)
(** ** Face descriptors of another length *)

(** X14. When the stored face descriptor and the submitted template
    differ in length, calculateDistance is Infinity and the attempt is
    refused with 400 "Face not recognized (confidence: -Infinity%)...",
    nothing being changed. *)
Theorem facialAttendance_length_mismatch (cfg : Config) (env : Env) (user : User)
    (body : FacialBody) (w : World) (employee : Employee) (stored : list float) :
  user_id user <> "" ->
  Store.lookup (fac_employeeId body) (employees (db w)) = Some employee ->
  faceDescriptor employee = Some stored ->
  List.length (fac_faceTemplate body) <> List.length stored ->
  calculateDistance (Some (fac_faceTemplate body)) (Some stored) = infinity
  /\ run (facialAttendance cfg env user body) w
     = ({| status := 400; success := false;
           message := "Face not recognized (confidence: -Infinity%). Please ensure good lighting, face the camera directly, and hold still. If this persists, re-register your face in Profile.";
           data := NoData |}, w).
Proof.
  intros Huser Hemp Hstored Hlength.
  assert (Hdistance : calculateDistance (Some (fac_faceTemplate body))
                        (Some stored) = infinity).
  { unfold calculateDistance. apply Nat.eqb_neq in Hlength. now rewrite Hlength. }
  split; [exact Hdistance|].
  apply String.eqb_neq in Huser.
  unfold facialAttendance. unfold_handler.
  rewrite Huser, Hemp, Hstored, Hdistance. reflexivity.
Qed.

Lemma facialAttendance_length_mismatch_witness :
  let result :=
    run (facialAttendance defaultConfig Sample.clock Sample.asAmal
           (Sample.face 0)) Scenario.shortDescriptor in
  status (fst result) = 400
  /\ message (fst result)
     = "Face not recognized (confidence: -Infinity%). Please ensure good lighting, face the camera directly, and hold still. If this persists, re-register your face in Profile.".
Proof.
  destruct (facialAttendance_length_mismatch defaultConfig Sample.clock
              Sample.asAmal (Sample.face 0) Scenario.shortDescriptor
              {| name := "Amal"; email := "amal@example.com";
                 role := "employee";
                 faceDescriptor := Some (repeat 0%float 64);
                 hireDate := None; emp_createdAt := None |}
              (repeat 0%float 64))
    as [_ Hrun];
    [discriminate | reflexivity | reflexivity | vm_compute; discriminate |].
  cbv zeta. rewrite Hrun. split; reflexivity.
Defined.

(* ================================================================== *)
(** ** What a report holds *)

Lemma aggregate_labels (tz : Z) (records : list Attendance) (report : Report) :
  rep_employeeId (aggregate tz report records) = rep_employeeId report
  /\ employeeName (aggregate tz report records) = employeeName report
  /\ employeeRole (aggregate tz report records) = employeeRole report
  /\ period (aggregate tz report records) = period report
  /\ startDate (aggregate tz report records) = startDate report
  /\ endDate (aggregate tz report records) = endDate report.
Proof.
  revert report. induction records as [|r records IH]; intros report.
  - cbn. repeat split.
  - cbn [aggregate fold_left].
    fold (aggregate tz (accumulate tz report r) records).
    destruct (IH (accumulate tz report r)) as [H1 [H2 [H3 [H4 [H5 H6]]]]].
    rewrite H1, H2, H3, H4, H5, H6. unfold accumulate.
    destruct (entryTime r); [destruct (exitTime r)|]; cbn; repeat split.
Qed.

Lemma lateDays_aggregate (tz : Z) (records : list Attendance) (report : Report) :
  0 <= lateDays report <= totalDays report ->
  0 <= lateDays (aggregate tz report records)
    <= totalDays (aggregate tz report records).
Proof.
  revert report. induction records as [|r records IH]; intros report Hreport.
  - exact Hreport.
  - cbn [aggregate fold_left].
    fold (aggregate tz (accumulate tz report r) records).
    apply IH. unfold accumulate.
    destruct (entryTime r) as [t|]; [|exact Hreport].
    destruct (exitTime r), (9 <=? JsDate.getHours tz t);
      cbn [lateDays totalDays tally]; lia.
Qed.

Lemma all_with_entry (records : list Attendance) :
  (forall r, In r records -> hasEntry r = true) ->
  filter hasEntry records = records.
Proof.
  induction records as [|r records IH]; intros H; cbn [filter]; [reflexivity|].
  rewrite (H r (or_introl eq_refl)). f_equal. apply IH.
  intros r' Hr'. apply H. now right.
Qed.

Lemma length_with_entry (docs : list Doc) :
  List.length (filter hasEntry (map snd docs))
  = List.length (filter (fun d => hasEntry (snd d)) docs).
Proof.
  induction docs as [|d docs IH]; cbn [map filter]; [reflexivity|].
  destruct (hasEntry (snd d)); cbn [List.length]; now rewrite IH.
Qed.

Lemma length_filter_le {A} (f : A -> bool) (l : list A) :
  (List.length (filter f l) <= List.length l)%nat.
Proof.
  induction l as [|x l IH]; cbn [filter List.length]; [lia|].
  destruct (f x); cbn [List.length]; lia.
Qed.

Lemma startOfDay_midnight (tz t : Z) :
  JsDate.msOfDay tz (JsDate.startOfDay tz t) = 0
  /\ JsDate.startOfDay tz t <= t < JsDate.startOfDay tz t + JsDate.msPerDay.
Proof.
  unfold JsDate.startOfDay, JsDate.msOfDay.
  assert (Hday : 0 < JsDate.msPerDay) by reflexivity.
  pose proof (Z.mod_pos_bound (t + tz) JsDate.msPerDay Hday) as Hbound.
  split; [|lia].
  replace (t - (t + tz) mod JsDate.msPerDay + tz)
    with ((t + tz) - (t + tz) mod JsDate.msPerDay) by lia.
  rewrite Zminus_mod, Z.mod_mod, Z.sub_diag by lia. reflexivity.
Qed.

(** The message of a date out of the range of [Timestamp] does not
    read as an index error. *)
Lemma get_In (s : string) (k : nat) (c : ascii) :
  String.get k s = Some c -> In c (list_ascii_of_string s).
Proof.
  revert k. induction s as [|d s IH]; intros [|k]; cbn; try discriminate.
  - intros [= ->]. now left.
  - intros H. right. now apply (IH k).
Qed.

Lemma list_ascii_of_append (s1 s2 : string) :
  list_ascii_of_string (s1 ++ s2)
  = (list_ascii_of_string s1 ++ list_ascii_of_string s2)%list.
Proof. induction s1 as [|c s1 IH]; cbn; [reflexivity | now rewrite IH]. Qed.

Lemma digits_without_x (n : Z) :
  ~ In "x"%char (list_ascii_of_string (JsNumber.digits n)).
Proof.
  unfold JsNumber.digits, NilZero.string_of_uint.
  assert (H : forall u,
             ~ In "x"%char (list_ascii_of_string (NilEmpty.string_of_uint u))).
  { induction u; cbn; try (intros [E | E]; [discriminate | auto]).
    intros []. }
  destruct (N.to_uint (Z.to_N n)) eqn:E; try (rewrite <- E; apply H).
  cbn. intros [F | []]. discriminate.
Qed.

Lemma outOfRange_not_index (t : Instant) :
  isIndexError (Timestamp.outOfRange t) = false.
Proof.
  unfold isIndexError, includes.
  destruct (String.index 0 "index" (Timestamp.outOfRange t)) as [m|] eqn:E;
    [|reflexivity].
  exfalso. apply String.index_correct1 in E.
  assert (Hx : String.get (4 + m) (Timestamp.outOfRange t) = Some "x"%char).
  { rewrite <- (String.substring_correct1 _ m 5 4) by lia.
    cbn [String.length] in E. rewrite E. reflexivity. }
  apply get_In in Hx. unfold Timestamp.outOfRange in Hx.
  rewrite !list_ascii_of_append in Hx.
  repeat (apply in_app_or in Hx; destruct Hx as [Hx | Hx]);
    try (now apply digits_without_x in Hx);
    try (destruct (Timestamp.seconds t <? 0));
    cbn in Hx; repeat (destruct Hx as [Hx | Hx]; [discriminate|]); exact Hx.
Qed.

(** X15. With the composite index in place, the weekly report of a
    known employee covers the seven days from the local midnight of the
    day of startDate, whatever the weekday, both ends included.  When
    both ends are instants a Firestore Timestamp holds, totalDays is the
    number of the employee's records whose entryTime is in that window,
    lateDays is between 0 and totalDays, and the report shows the dates
    of the window.  When one is not (a week that starts before year 1 or
    ends after year 9999), the answer is 500 "Server error" and no
    report. *)
Theorem getPresenceReport_weekly (cfg : Config) (env : Env) (user : User)
    (id : string) (q : ReportQuery) (w : World) (employee : Employee) :
  Store.lookup id (employees (db w)) = Some employee ->
  compositeQueryError env = None ->
  q_period q = weekly ->
  let start := JsDate.startOfDay (tzOffset cfg) (q_startDate q) in
  let end_ := start + 7 * JsDate.msPerDay in
  JsDate.msOfDay (tzOffset cfg) start = 0
  /\ start <= q_startDate q < start + JsDate.msPerDay
  /\ (Timestamp.holds start && Timestamp.holds end_ = true ->
      exists report,
        run (getPresenceReport cfg env user id q) w
        = ({| status := 200; success := true;
              message := "Presence report generated successfully";
              data := ReportData report |}, w)
        /\ period report = "weekly"
        /\ startDate report = Some (JsDate.isoDate start)
        /\ endDate report = Some (JsDate.isoDate end_)
        /\ totalDays report
           = Z.of_nat
               (List.length
                  (Store.whereEntryBetween start end_
                     (Store.whereEmployee id (attendance (db w)))))
        /\ 0 <= lateDays report <= totalDays report)
  /\ (Timestamp.holds start && Timestamp.holds end_ = false ->
      let result := run (getPresenceReport cfg env user id q) w in
      status (fst result) = 500
      /\ message (fst result) = "Server error"
      /\ (forall report, data (fst result) <> ReportData report)
      /\ snd result = w).
Proof.
  intros Hemp Hindex Hweekly start end_.
  destruct (startOfDay_midnight (tzOffset cfg) (q_startDate q)) as [Hmid Hin].
  split; [exact Hmid | split; [exact Hin|]].
  split.
  - intros Hheld. apply andb_prop in Hheld. destruct Hheld as [Hs He].
    eexists. split.
    + unfold getPresenceReport, window. unfold_handler.
      rewrite Hemp, Hweekly. unfold weekOf. cbn [fst snd].
      change (JsDate.addDays 7
                (JsDate.startOfDay (tzOffset cfg) (q_startDate q))) with end_.
      fold start. rewrite Hindex, Hs, He. reflexivity.
    + cbn [option_map fst snd periodName].
      match goal with
      | |- context [aggregate ?tz ?r ?l] =>
          destruct (aggregate_labels tz l r) as [_ [_ [_ [Hp [Hs' He']]]]];
          pose proof (totalDays_aggregate tz l r) as Hdays;
          pose proof (lateDays_aggregate tz l r) as Hlate
      end.
      rewrite Hp, Hs', He', Hdays.
      split; [reflexivity | split; [reflexivity | split; [reflexivity|]]].
      split.
      * cbn [totalDays newReport]. rewrite all_with_entry.
        -- rewrite length_map. unfold Store.byEntryAsc.
           rewrite length_sortBy. reflexivity.
        -- intros r Hr. apply in_map_iff in Hr. destruct Hr as [d [<- Hd]].
           apply In_sortBy in Hd. apply filter_In in Hd. destruct Hd as [_ Hd].
           unfold hasEntry. now destruct (entryTime (snd d)).
      * rewrite <- Hdays. apply Hlate. cbn. lia.
  - intros Hout.
    unfold getPresenceReport, window. unfold_handler.
    rewrite Hemp, Hweekly. unfold weekOf. cbn [fst snd].
    change (JsDate.addDays 7
              (JsDate.startOfDay (tzOffset cfg) (q_startDate q))) with end_.
    fold start. rewrite Hindex.
    destruct (Timestamp.holds start); cbn [negb andb] in *.
    + rewrite Hout. cbn [negb]. rewrite outOfRange_not_index.
      cbn [fst snd status message data]. repeat split. discriminate.
    + rewrite outOfRange_not_index.
      cbn [fst snd status message data]. repeat split. discriminate.
Qed.

(** The week of 2025-11-13 holds one of Amal's two sessions; the week
    of 9999-12-28 ends in year 10000 and is answered 500. *)
Lemma getPresenceReport_weekly_witness :
  (exists report,
     data (fst (run (getPresenceReport defaultConfig Sample.clock Sample.asAmal
                       "E1" Sample.thisWeek) Sample.twoYears))
     = ReportData report
     /\ startDate report = Some "2025-11-13"
     /\ endDate report = Some "2025-11-20"
     /\ totalDays report = 1)
  /\ JsDate.isoDate
       (AttendanceReportsController.q_startDate Scenario.lastWeekOf9999)
     = "9999-12-28"
  /\ status (fst (run (getPresenceReport defaultConfig Sample.clock Sample.asAmal
                         "E1" Scenario.lastWeekOf9999) Sample.twoYears))
     = 500.
Proof.
  split; [|split; [vm_compute; reflexivity|]].
  - destruct (getPresenceReport_weekly defaultConfig Sample.clock Sample.asAmal
                "E1" Sample.thisWeek Sample.twoYears Sample.amal
                eq_refl eq_refl eq_refl)
      as [_ [_ [Hheld _]]].
    destruct (Hheld eq_refl) as [report [Hrun [_ [Hstart [Hend [Hdays _]]]]]].
    exists report. rewrite Hrun, Hstart, Hend, Hdays.
    repeat split; reflexivity.
  - destruct (getPresenceReport_weekly defaultConfig Sample.clock Sample.asAmal
                "E1" Scenario.lastWeekOf9999 Sample.twoYears Sample.amal
                eq_refl eq_refl eq_refl)
      as [_ [_ [_ Hout]]].
    now destruct (Hout eq_refl) as [Hstatus _].
Defined.

(** X16. A daily report asked without endDate ignores startDate: no
    window is set, the report carries no dates, and totalDays counts
    every record of the employee that has an entryTime. *)
Theorem getPresenceReport_daily_without_endDate (cfg : Config) (env : Env)
    (user : User) (id : string) (q : ReportQuery) (w : World)
    (employee : Employee) :
  Store.lookup id (employees (db w)) = Some employee ->
  simpleQueryError env = None ->
  q_period q = daily ->
  q_endDate q = None ->
  exists report,
    run (getPresenceReport cfg env user id q) w
    = ({| status := 200; success := true;
          message := "Presence report generated successfully";
          data := ReportData report |}, w)
    /\ period report = "daily"
    /\ startDate report = None
    /\ endDate report = None
    /\ totalDays report
       = Z.of_nat
           (List.length
              (filter (fun d => hasEntry (snd d))
                 (Store.whereEmployee id (attendance (db w))))).
Proof.
  intros Hemp Hquery Hdaily Hend.
  eexists. split.
  - unfold getPresenceReport, window. unfold_handler.
    rewrite Hemp, Hdaily, Hend, Hquery. reflexivity.
  - cbn [option_map fst snd periodName].
    match goal with
    | |- context [aggregate ?tz ?r ?l] =>
        destruct (aggregate_labels tz l r) as [_ [_ [_ [Hp [Hs He]]]]];
        pose proof (totalDays_aggregate tz l r) as Hdays
    end.
    rewrite Hp, Hs, He, Hdays.
    repeat split. cbn [totalDays newReport].
    now rewrite length_with_entry.
Qed.

Lemma getPresenceReport_daily_without_endDate_witness :
  exists report,
    data (fst (run (getPresenceReport defaultConfig Sample.clock Sample.asAmal
                      "E1" Scenario.fromNine) Sample.twoYears))
    = ReportData report
    /\ startDate report = None
    /\ totalDays report = 2.
Proof.
  destruct (getPresenceReport_daily_without_endDate defaultConfig Sample.clock
              Sample.asAmal "E1" Scenario.fromNine Sample.twoYears Sample.amal
              eq_refl eq_refl eq_refl eq_refl)
    as [report [Hrun [_ [Hstart [_ Hdays]]]]].
  exists report. rewrite Hrun, Hstart, Hdays. repeat split; reflexivity.
Defined.

Lemma snapshotFor_outcome (env : Env) (id : string)
    (range : option (Instant * Instant)) (w : World) :
  (exists docs, snapshotFor env id range w = (Next docs, w)
                /\ incl docs (Store.whereEmployee id (attendance (db w)))
                /\ (List.length docs
                    <= List.length (Store.whereEmployee id (attendance (db w))))%nat)
  \/ (exists error, snapshotFor env id range w
                    = (Reply {| status := 500; success := false;
                                message := "Server error";
                                data := ErrorText error |}, w)).
Proof.
  unfold snapshotFor. unfold_handler.
  destruct range as [[start end_]|].
  - destruct (compositeQueryError env) as [msg|].
    + destruct (isIndexError msg).
      * destruct (simpleQueryError env) as [error|].
        -- right. now exists error.
        -- left. eexists. split; [reflexivity|]. split; [apply incl_refl | lia].
      * right. now exists msg.
    + destruct (Timestamp.holds start); cbn [negb];
        [destruct (Timestamp.holds end_); cbn [negb]|];
        rewrite ?outOfRange_not_index;
        [|right; eexists; reflexivity | right; eexists; reflexivity].
      left. eexists. split; [reflexivity|]. unfold Store.byEntryAsc. split.
      * intros d Hd. apply In_sortBy in Hd. now apply whereEntryBetween_incl in Hd.
      * rewrite length_sortBy. apply length_filter_le.
  - destruct (simpleQueryError env) as [error|].
    + right. now exists error.
    + left. eexists. split; [reflexivity|]. split; [apply incl_refl | lia].
Qed.

Lemma reportFor_outcome (cfg : Config) (env : Env) (q : AllReportsQuery)
    (employeeDoc : string * Employee) (w : World) :
  (exists report,
     reportFor cfg env q employeeDoc w = (Next report, w)
     /\ rep_employeeId report = fst employeeDoc
     /\ employeeName report = name (snd employeeDoc)
     /\ employeeRole report = Some (role (snd employeeDoc))
     /\ period report = reportPeriod q
     /\ 0 <= lateDays report <= totalDays report
     /\ totalDays report
        <= Z.of_nat (List.length (Store.whereEmployee (fst employeeDoc)
                                    (attendance (db w)))))
  \/ (exists error, reportFor cfg env q employeeDoc w
                    = (Reply {| status := 500; success := false;
                                message := "Server error";
                                data := ErrorText error |}, w)).
Proof.
  unfold reportFor.
  destruct (snapshotFor_outcome env (fst employeeDoc)
              (windowFor cfg env (snd employeeDoc) q) w)
    as [[docs [Hrun [_ Hlength]]] | [error Hrun]].
  - left. unfold bind at 1. rewrite Hrun. unfold ret. eexists.
    split; [reflexivity|].
    match goal with
    | |- context [aggregate ?tz ?r ?l] =>
        destruct (aggregate_labels tz l r) as [H1 [H2 [H3 [H4 _]]]];
        pose proof (totalDays_aggregate tz l r) as Hdays;
        pose proof (lateDays_aggregate tz l r) as Hlate
    end.
    rewrite H1, H2, H3, H4.
    repeat (split; [reflexivity|]).
    split; [apply Hlate; cbn; lia|].
    rewrite Hdays. cbn [totalDays newReport].
    pose proof (length_filter_le hasEntry (map snd docs)) as Hfilter.
    rewrite length_map in Hfilter. rewrite Z.add_0_l. apply Nat2Z.inj_le.
    exact (Nat.le_trans _ _ _ Hfilter Hlength).
  - right. exists error. unfold bind at 1. rewrite Hrun. reflexivity.
Qed.

Lemma forEmployees_outcome (cfg : Config) (env : Env) (q : AllReportsQuery)
    (w : World) (docs : list (string * Employee)) (reports : list Report) :
  (exists more,
     forEmployees cfg env q docs reports w = (Next (reports ++ more)%list, w)
     /\ map rep_employeeId more = map fst docs
     /\ map employeeName more = map (fun d => name (snd d)) docs
     /\ Forall (fun report =>
                  period report = reportPeriod q
                  /\ 0 <= lateDays report <= totalDays report
                  /\ totalDays report
                     <= Z.of_nat
                          (List.length
                             (Store.whereEmployee (rep_employeeId report)
                                (attendance (db w))))) more)
  \/ (exists error, forEmployees cfg env q docs reports w
                    = (Reply {| status := 500; success := false;
                                message := "Server error";
                                data := ErrorText error |}, w)).
Proof.
  revert reports. induction docs as [|doc docs IH]; intros reports;
    cbn [forEmployees].
  - left. exists []. rewrite app_nil_r. repeat split. constructor.
  - destruct (reportFor_outcome cfg env q doc w)
      as [[report [Hrun [Hid [Hname [_ [Hperiod [Hlate Hdays]]]]]]] | [error Hrun]].
    + destruct (IH (reports ++ [report])%list)
        as [[more [Hrest [Hids [Hnames Hall]]]] | [error Hrest]].
      * left. exists (report :: more). unfold bind at 1.
        rewrite Hrun, Hrest, <- app_assoc.
        split; [reflexivity|]. cbn [map]. rewrite Hid, Hname, Hids, Hnames.
        repeat split. constructor; [|exact Hall]. rewrite Hid. now repeat split.
      * right. exists error. unfold bind at 1. rewrite Hrun. exact Hrest.
    + right. exists error. unfold bind at 1. rewrite Hrun. reflexivity.
Qed.

(** X17. getAllPresenceReports changes nothing and answers 200 or 500.
    When it answers 200 there is one report per employee, in the order
    of the employees, under the employee's id and name, with the
    requested period (or "all-time"), 0 <= lateDays <= totalDays, and
    totalDays at most the number of records the store holds for that
    employee. *)
Theorem getAllPresenceReports_one_report_per_employee (cfg : Config) (env : Env)
    (user : User) (q : AllReportsQuery) (w : World) :
  let result := run (getAllPresenceReports cfg env user q) w in
  snd result = w
  /\ (status (fst result) = 200 \/ status (fst result) = 500)
  /\ (status (fst result) = 200 ->
      exists reports,
        data (fst result) = ReportsData reports
        /\ map rep_employeeId reports = map fst (employees (db w))
        /\ map employeeName reports
           = map (fun d => name (snd d)) (employees (db w))
        /\ Forall (fun report =>
                     period report = reportPeriod q
                     /\ 0 <= lateDays report <= totalDays report
                     /\ totalDays report
                        <= Z.of_nat
                             (List.length
                                (Store.whereEmployee (rep_employeeId report)
                                   (attendance (db w))))) reports).
Proof.
  cbv zeta. unfold getAllPresenceReports. unfold_handler.
  destruct (forEmployees_outcome cfg env q w (employees (db w)) [])
    as [[more [Hrun [Hids [Hnames Hall]]]] | [error Hrun]]; rewrite Hrun;
    cbn [app fst snd status data].
  - split; [reflexivity | split; [now left|]].
    intros _. exists more. now repeat split.
  - split; [reflexivity | split; [now right|]].
    discriminate.
Qed.

(* ================================================================== *)
(** ** Daily statistics *)

Lemma msOfDay_addDays (tz n t : Z) :
  JsDate.msOfDay tz (JsDate.addDays n t) = JsDate.msOfDay tz t.
Proof.
  unfold JsDate.msOfDay, JsDate.addDays.
  replace (t + n * JsDate.msPerDay + tz) with (t + tz + n * JsDate.msPerDay)
    by lia.
  apply Z.mod_add. discriminate.
Qed.

Lemma startOfDay_addDays (tz n t : Z) :
  JsDate.startOfDay tz (JsDate.addDays n t)
  = JsDate.addDays n (JsDate.startOfDay tz t).
Proof.
  unfold JsDate.startOfDay. rewrite msOfDay_addDays.
  unfold JsDate.addDays. lia.
Qed.

(** The employees seen on a day of the series, read in the store. *)
Lemma employees_onDay (start day : Instant) (docs : list Doc) :
  start <= day ->
  map fst (filter (onDay day) (entriesSince start docs))
  = map (fun doc => employeeId (snd doc))
      (filter (fun doc => match entryTime (snd doc) with
                          | Some t => (day <=? t) && (t <? JsDate.addDays 1 day)
                          | None => false
                          end) docs).
Proof.
  intros Hstart. induction docs as [|doc docs IH]; [reflexivity|].
  cbn [entriesSince flat_map filter]. fold (entriesSince start docs).
  destruct (entryTime (snd doc)) as [t|]; [|exact IH].
  destruct (start <=? t) eqn:Hsince; cbn [app filter].
  - change (onDay day (employeeId (snd doc), t))
      with ((day <=? t) && (t <? JsDate.addDays 1 day)).
    destruct ((day <=? t) && (t <? JsDate.addDays 1 day)); cbn [map fst];
      now rewrite IH.
  - replace (day <=? t) with false by (symmetry; apply Z.leb_gt; lia).
    exact IH.
Qed.

Lemma length_nodup_snoc (l : list string) (x : string) :
  List.length (nodup string_dec (l ++ [x]))
  = if in_dec string_dec x l
    then List.length (nodup string_dec l)
    else S (List.length (nodup string_dec l)).
Proof.
  induction l as [|a l IH]; [reflexivity|].
  cbn [app nodup].
  destruct (in_dec string_dec a (l ++ [x])) as [Hin | Hout],
           (in_dec string_dec x (a :: l)) as [Hx | Hx],
           (in_dec string_dec a l) as [Ha | Ha],
           (in_dec string_dec x l) as [Hxl | Hxl];
    cbn [List.length]; rewrite ?IH;
    try reflexivity;
    try (exfalso; apply in_app_or in Hin; cbn in Hin, Hx; intuition congruence);
    try (exfalso; apply Hout; apply in_or_app; cbn; cbn in Hx; intuition congruence);
    try (exfalso; cbn in Hx; intuition congruence).
  all: try (apply in_app_or in Hin; cbn in Hin;
            destruct Hin as [Hin | [-> | []]]; tauto).
Qed.

(** X18. In a day's statistics an employee counts once: one more
    record leaves the count of the day as it is when the record is not
    of that day, or when its employee already has a record that day, and
    raises the count by one otherwise. *)
Theorem dayStats_counts_each_employee_once (records : list (string * Instant))
    (day : Instant) (employee : string) (t : Instant) :
  let before := count (dayStats records day) in
  let after := count (dayStats (records ++ [(employee, t)]) day) in
  (onDay day (employee, t) = false -> after = before)
  /\ (In employee (map fst (filter (onDay day) records)) -> after = before)
  /\ (onDay day (employee, t) = true ->
      ~ In employee (map fst (filter (onDay day) records)) ->
      after = S before).
Proof.
  cbv zeta. unfold dayStats. cbn [count]. rewrite filter_app. cbn [filter].
  destruct (onDay day (employee, t)) eqn:Hday.
  - rewrite map_app. cbn [map fst]. rewrite length_nodup_snoc.
    destruct (in_dec string_dec employee
                (map fst (filter (onDay day) records))) as [Hin | Hout].
    + split; [discriminate|].
      split; [reflexivity | intros _ Hno; now elim Hno].
    + split; [discriminate|].
      split; [intros Hin; now elim Hout | reflexivity].
  - rewrite app_nil_r. split; [reflexivity|]. split; [reflexivity | discriminate].
Qed.

(** The start of the series is in the thirty days before the clock as
    soon as a day is asked for. *)
Lemma dailyStart_recent (tz clock n : Z) :
  0 < n <= 30 ->
  clock - 30 * JsDate.msPerDay
  <= JsDate.startOfDay tz (JsDate.addDays (- n + 1) clock) <= clock.
Proof.
  intros Hn. rewrite startOfDay_addDays.
  destruct (startOfDay_midnight tz clock) as [_ Hday].
  unfold JsDate.addDays, JsDate.msPerDay in *. lia.
Qed.

Lemma dailyStart_ahead (tz clock n : Z) :
  n <= 0 -> clock < JsDate.startOfDay tz (JsDate.addDays (- n + 1) clock).
Proof.
  intros Hn. rewrite startOfDay_addDays.
  destruct (startOfDay_midnight tz clock) as [_ Hday].
  unfold JsDate.addDays, JsDate.msPerDay in *. lia.
Qed.

(** The series, when its start is converted. *)
Lemma getDailyStats_runs (cfg : Config) (env : Env) (days : option Z)
    (w : World) :
  let n := Z.min (requestedDays days) 30 in
  let startDate :=
    JsDate.startOfDay (tzOffset cfg) (JsDate.addDays (- n + 1) (now env)) in
  0 < n \/ Timestamp.holds startDate = true ->
  answer (getDailyStats cfg env None days) w
  = (inr {| found_message := "Daily statistics retrieved successfully";
            found_data :=
              map (fun i =>
                     dayStats (entriesSince startDate (attendance (db w)))
                       (JsDate.addDays (Z.of_nat i) startDate))
                (seq 0 (Z.to_nat n)) |}, w).
Proof.
  intros n startDate Hok.
  unfold answer, getDailyStats, Timestamp.fromClock. fold n. fold startDate.
  unfold_handler.
  destruct ((now env - 30 * JsDate.msPerDay <=? startDate)
            && (startDate <=? now env)) eqn:Hnear; [reflexivity|].
  destruct (Timestamp.holds startDate) eqn:Hheld; [reflexivity|].
  exfalso. destruct Hok as [Hn | Hok]; [|discriminate].
  assert (Hrecent := dailyStart_recent (tzOffset cfg) (now env) n).
  fold startDate in Hrecent.
  apply andb_false_iff in Hnear.
  destruct Hnear as [H | H]; apply Z.leb_gt in H; lia.
Qed.

(** X19. getDailyStats asks for min(days, 30) rows (days being 7 when
    the parameter is absent, not a number or 0), one per local day, the
    last one being today, and queries the records from the local
    midnight that starts the first day.  When a day is asked for, or
    when that midnight is an instant a Firestore Timestamp holds, the
    answer has these rows (none for days < 0): row i is labelled with
    the UTC date of the local midnight that starts its day, and counts
    the distinct employees with an entryTime in the 24 hours from that
    midnight.  Otherwise (days so far below zero that the start is past
    year 9999) the answer is 500 "Server error". *)
Theorem getDailyStats_series (cfg : Config) (env : Env) (days : option Z)
    (w : World) :
  let n := Z.min (requestedDays days) 30 in
  let today := JsDate.startOfDay (tzOffset cfg) (now env) in
  let start := JsDate.addDays (1 - n) today in
  (0 < n \/ Timestamp.holds start = true ->
   exists stats,
     answer (getDailyStats cfg env None days) w
     = (inr {| found_message := "Daily statistics retrieved successfully";
               found_data := stats |}, w)
     /\ List.length stats = Z.to_nat n
     /\ (List.length stats <= 30)%nat
     /\ forall i row,
          nth_error stats i = Some row ->
          let day := JsDate.addDays (Z.of_nat i - (n - 1)) today in
          date row = JsDate.isoDate day
          /\ count row
             = List.length
                 (nodup string_dec
                    (map (fun doc => employeeId (snd doc))
                       (filter (fun doc =>
                                  match entryTime (snd doc) with
                                  | Some t =>
                                      (day <=? t) && (t <? JsDate.addDays 1 day)
                                  | None => false
                                  end) (attendance (db w))))))
  /\ (n <= 0 -> Timestamp.holds start = false ->
      exists response,
        answer (getDailyStats cfg env None days) w = (inl response, w)
        /\ status response = 500
        /\ message response = "Server error").
Proof.
  intros n today start.
  assert (Hstart : JsDate.startOfDay (tzOffset cfg)
                     (JsDate.addDays (- n + 1) (now env)) = start).
  { rewrite startOfDay_addDays. subst start today. unfold JsDate.addDays. lia. }
  split.
  - intros Hok. rewrite getDailyStats_runs by (fold n; now rewrite Hstart).
    fold n. eexists. split; [reflexivity|].
    rewrite length_map, length_seq.
    split; [reflexivity | split; [lia|]].
    intros i row. rewrite nth_error_map, nth_error_seq.
    destruct (i <? Z.to_nat n)%nat; [|discriminate].
    cbv zeta. cbn [option_map Nat.add]. intros [= <-].
    set (day := JsDate.addDays (Z.of_nat i - (n - 1)) today).
    assert (Hday : JsDate.addDays (Z.of_nat i)
                     (JsDate.startOfDay (tzOffset cfg)
                        (JsDate.addDays (- n + 1) (now env))) = day).
    { rewrite startOfDay_addDays. subst day today. unfold JsDate.addDays. lia. }
    rewrite Hday. unfold dayStats. cbn [date count].
    split; [reflexivity|].
    rewrite employees_onDay; [reflexivity|].
    rewrite <- Hday. unfold JsDate.addDays, JsDate.msPerDay. lia.
  - intros Hn Hout.
    pose proof (dailyStart_ahead (tzOffset cfg) (now env) n Hn) as Hahead.
    rewrite Hstart in Hahead.
    unfold answer, getDailyStats, Timestamp.fromClock. fold n. rewrite Hstart.
    unfold_handler.
    replace (start <=? now env) with false by (symmetry; apply Z.leb_gt; lia).
    rewrite andb_false_r, Hout. eexists. repeat split.
Qed.

(** Seven rows by default; 500 when three million days ahead are asked
    for. *)
Lemma getDailyStats_series_witness :
  (exists stats,
     answer (getDailyStats defaultConfig Sample.clock None None) Sample.entered
     = (inr {| found_message := "Daily statistics retrieved successfully";
               found_data := stats |}, Sample.entered)
     /\ List.length stats = 7%nat)
  /\ (exists response,
        answer (getDailyStats defaultConfig Sample.clock None (Some (-3000000)))
          Sample.entered
        = (inl response, Sample.entered)
        /\ status response = 500).
Proof.
  split.
  - destruct (getDailyStats_series defaultConfig Sample.clock None Sample.entered)
      as [Hrows _].
    destruct (Hrows (or_introl eq_refl)) as [stats [Hanswer [Hlength _]]].
    exists stats. split; [exact Hanswer | exact Hlength].
  - destruct (getDailyStats_series defaultConfig Sample.clock (Some (-3000000))
                Sample.entered) as [_ Hout].
    destruct Hout as [response [Hanswer [Hstatus _]]];
      [discriminate | reflexivity |].
    exists response. split; [exact Hanswer | exact Hstatus].
Defined.

Lemma isoDate_same_day (a b : Z) :
  a / JsDate.msPerDay = b / JsDate.msPerDay -> JsDate.isoDate a = JsDate.isoDate b.
Proof. intros H. unfold JsDate.isoDate. now rewrite H. Qed.

(** X20. On a server east of Greenwich (local time ahead of UTC by up
    to a day), the last row of getDailyStats counts the entries of the
    local day of today, from local midnight to local midnight, and is
    labelled with the date of the day before. *)
Theorem getDailyStats_dates_east_of_utc (cfg : Config) (env : Env)
    (days : option Z) (w : World) :
  0 < tzOffset cfg <= JsDate.msPerDay ->
  0 < requestedDays days ->
  let localToday := JsDate.localDay (tzOffset cfg) (now env) in
  exists earlier today,
    answer (getDailyStats cfg env None days) w
    = (inr {| found_message := "Daily statistics retrieved successfully";
              found_data := (earlier ++ [today])%list |}, w)
    /\ date today = JsDate.isoDate ((localToday - 1) * JsDate.msPerDay)
    /\ count today
       = List.length
           (nodup string_dec
              (map (fun doc => employeeId (snd doc))
                 (filter (fun doc =>
                            match entryTime (snd doc) with
                            | Some t =>
                                (localToday * JsDate.msPerDay - tzOffset cfg <=? t)
                                && (t <? (localToday + 1) * JsDate.msPerDay
                                         - tzOffset cfg)
                            | None => false
                            end) (attendance (db w))))).
Proof.
  intros Heast Hdays localToday.
  rewrite getDailyStats_runs by (left; lia).
  set (n := Z.min (requestedDays days) 30).
  set (start := JsDate.startOfDay (tzOffset cfg)
                  (JsDate.addDays (- n + 1) (now env))).
  destruct (Z.to_nat n) as [|k] eqn:Hn; [lia|].
  rewrite seq_S, map_app. cbn [map Nat.add].
  eexists _, _. split; [reflexivity|].
  assert (Hday : JsDate.addDays (Z.of_nat k) start
                 = localToday * JsDate.msPerDay - tzOffset cfg).
  { subst start. rewrite startOfDay_addDays.
    unfold JsDate.addDays, JsDate.startOfDay, JsDate.msOfDay.
    subst localToday. unfold JsDate.localDay.
    pose proof (Z.div_mod (now env + tzOffset cfg) JsDate.msPerDay) as Hdiv.
    assert (Hk : Z.of_nat k = n - 1) by lia.
    rewrite Hk. unfold JsDate.msPerDay in *. lia. }
  unfold dayStats. cbn [date count]. rewrite Hday. split.
  - apply isoDate_same_day. rewrite Z.div_mul by discriminate.
    symmetry. apply Z.div_unique with (r := JsDate.msPerDay - tzOffset cfg).
    + left. lia.
    + lia.
  - rewrite employees_onDay.
    + unfold JsDate.addDays.
      replace (localToday * JsDate.msPerDay - tzOffset cfg + 1 * JsDate.msPerDay)
        with ((localToday + 1) * JsDate.msPerDay - tzOffset cfg) by lia.
      reflexivity.
    + rewrite <- Hday. unfold JsDate.addDays, JsDate.msPerDay. lia.
Qed.

Lemma getDailyStats_dates_east_of_utc_witness :
  JsDate.isoDate (Sample.nine + tzOffset Scenario.tunis) = "2025-11-13"
  /\ exists earlier today,
       answer (getDailyStats Scenario.tunis Sample.clock None None)
         Sample.entered
       = (inr {| found_message := "Daily statistics retrieved successfully";
                 found_data := (earlier ++ [today])%list |}, Sample.entered)
       /\ date today = "2025-11-12"
       /\ count today = 1%nat.
Proof.
  split; [vm_compute; reflexivity|].
  destruct (getDailyStats_dates_east_of_utc Scenario.tunis Sample.clock None
              Sample.entered)
    as [earlier [today [Hanswer [Hdate Hcount]]]];
    [vm_compute; split; [reflexivity | discriminate] | reflexivity |].
  exists earlier, today. split; [exact Hanswer|].
  rewrite Hdate, Hcount. split; vm_compute; reflexivity.
Defined.
